(** * vCenter lifecycle scripts (main.py): a shallow embedding

    The scripts of main.py drive a vCenter session through the pyVmomi object
    model: they read the inventory, submit mutating calls, poll the task a
    call returns, and print what happened.  The embedding keeps that shape.

    - The platform (vCenter behind pyVmomi) is outside the repository.  It is
      a [Platform] record of three functions, bound as a Section variable, so
      every theorem holds for every platform behaviour.
    - A [World] is what a script can see or change: the inventory content,
      the number of [task.info] round trips made so far, and the ordered
      trace of effects (calls submitted, task reads, printed lines).
    - A script is a computation in the monad [M]: it threads the world and
      ends by returning a value, by raising a Python exception, or still
      looping when the step budget of its [while] loop ran out.  The world
      survives a raise, as the effects of a Python [try] body do.
    - Every evaluation of [task.info] is one round trip to the platform
      (pyVmomi fetches a managed object's property each time it is read), so
      [task.info.state] in a loop condition, in the [if] after the loop and
      in [task.info.error.msg] are three separate reads.
    - Reading the inventory is taken to succeed; calls and task reads may
      raise. *)

From Stdlib Require Import String Ascii List Bool Arith ZArith Lia DecimalString.
Import ListNotations.
Open Scope string_scope.

(** ** Python values and exceptions *)

(** The exceptions the modelled code paths can meet.  [Fault] is what the SDK
    raises (a transport error or a fault the platform sends back); the other
    two are raised by the interpreter itself. *)
Inductive Exn : Type :=
| IndexError
| AttributeError (attr : string)
| Fault (message : string).

(** [str(e)], as the [except] handlers print it with [{e}]. *)
Definition str_exn (e : Exn) : string :=
  match e with
  | IndexError => "list index out of range"
  | AttributeError attr => "'NoneType' object has no attribute '" ++ attr ++ "'"
  | Fault message => message
  end.

(** [class PowerAction(Enum)] with its [.value]. *)
Inductive PowerAction : Type := POWER_ON | POWER_OFF | REBOOT.

Definition action_value (a : PowerAction) : string :=
  match a with
  | POWER_ON => "power_on"
  | POWER_OFF => "power_off"
  | REBOOT => "reboot"
  end.

(** ** The slice of the vim object model the scripts touch *)

(** [vim.TaskInfo.State] *)
Module State.

Inductive t : Type := queued | running | success | error.

Definition eqb (a b : t) : bool :=
  match a, b with
  | queued, queued | running, running | success, success | error, error => true
  | _, _ => false
  end.

End State.

(** [task.info.error]: a fault with its [msg]. *)
Record MethodFault : Type := { msg : string }.

(** [task.info]: one value of this record per round trip. *)
Record TaskInfo : Type := {
  state : State.t;
  error : option MethodFault
}.

(** A task handle, as a submitting call returns it. *)
Definition Task : Type := nat.

(** [vim.VirtualMachinePowerState] *)
Inductive PowerState : Type := poweredOn | poweredOff | suspended.

Definition PowerState_eqb (a b : PowerState) : bool :=
  match a, b with
  | poweredOn, poweredOn | poweredOff, poweredOff | suspended, suspended => true
  | _, _ => false
  end.

Record SnapshotTree : Type := {
  tree_name : string;
  tree_snapshot : nat
}.

(** [vm.snapshot] when it is not [None]. *)
Record SnapshotInfo : Type := {
  rootSnapshotList : list SnapshotTree;
  currentSnapshot : nat
}.

Record VirtualMachine : Type := {
  vm_name : string;
  powerState : PowerState;
  snapshot : option SnapshotInfo
}.

Record Datastore : Type := { ds_name : string }.

(** A resource pool with its child pools ([pool.resourcePool]). *)
#[warnings="-register-all"]
Inductive ResourcePool : Type :=
| Pool (name : string) (children : list ResourcePool).

Definition rp_name (p : ResourcePool) : string :=
  match p with Pool n _ => n end.

Definition rp_children (p : ResourcePool) : list ResourcePool :=
  match p with Pool _ cs => cs end.

(** A child of [datacenter.hostFolder]. *)
Record ComputeResource : Type := { resourcePool : ResourcePool }.

(** A child of [datacenter.vmFolder]: a VM, or something else (a sub-folder),
    which [isinstance(vm, vim.VirtualMachine)] tells apart. *)
Inductive Entity : Type :=
| EntityVM (vm : VirtualMachine)
| EntityFolder (name : string).

Record Datacenter : Type := {
  dc_name : string;
  vmFolder : list Entity;
  hostFolder : list ComputeResource;
  dc_datastore : list Datastore
}.

(** The value of [event.vm].  The platform stores a
    [vim.event.VmEventArgument] there: it has a [.name] and is no
    [vim.event.VmEvent].  The other constructor is a value that passes
    [isinstance(event.vm, vim.event.VmEvent)]: an event object, which has no
    [.name]; reading it raises [no_name]. *)
Inductive EventVm : Type :=
| VmEventArgument (name : string)
| VmEventInstance (no_name : Exn).

(** An event.  [type_name] is [type(event).__name__] (for a pyVmomi event the
    dotted name, as in [vim.event.VmPoweredOnEvent]); [is_power_event] is
    [isinstance(event, (vim.event.VmPoweredOnEvent,
    vim.event.VmPoweredOffEvent))]; [ev_vm = None] stands for an event
    without a [vm] attribute, or with [vm] set to [None]: the test of line
    499 is false for both. *)
Record VcEvent : Type := {
  type_name : string;
  is_power_event : bool;
  ev_vm : option EventVm;
  createdTime : string;
  userName : string
}.

(** What [si.RetrieveContent()] gives access to.  [vm_view] and
    [datastore_view] are the [.view] of the recursive container views over
    [vim.VirtualMachine] and [vim.Datastore]; [recent_events] is the answer of
    [eventManager.QueryEvents], which may raise. *)
Record Content : Type := {
  rootFolder : list Datacenter;
  vm_view : list VirtualMachine;
  datastore_view : list Datastore;
  recent_events : Exn + list VcEvent
}.

(** [vim.vm.ConfigSpec] as [create_vm] fills it. *)
Record ConfigSpec : Type := {
  cfg_name : string;
  memoryMB : nat;
  numCPUs : nat;
  guestId : string;
  vmPathName : string
}.

(** [vim.vm.CloneSpec] with its [RelocateSpec] flattened in. *)
Record CloneSpec : Type := {
  location_datastore : option Datastore;
  location_pool : option ResourcePool;
  powerOn : bool
}.

(** The mutating calls the modelled scripts submit. *)
Inductive Call : Type :=
| CreateVM_Task (folder : list Entity) (config : ConfigSpec) (pool : ResourcePool)
| PowerOn (vm : VirtualMachine)
| PowerOff (vm : VirtualMachine)
| CreateSnapshot_Task (vm : VirtualMachine) (name description : string)
                      (memory quiesce : bool)
| RevertToSnapshot_Task (snap : nat)
| Clone (vm : VirtualMachine) (folder : list Entity) (name : string)
        (spec : CloneSpec).

(** ** Worlds, effects and the script monad *)

(** One effect of a script.  [EvSleep] is [time.sleep]: it is in the
    vocabulary so that traces can be asked whether the caller was suspended;
    main.py never imports [time]. *)
Inductive Event : Type :=
| EvCall (c : Call)
| EvRead (t : Task)
| EvPrint (line : string)
| EvSleep.

Record World : Type := {
  content : Content;
  polls : nat;
  trace : list Event
}.

(** The platform: whether a call is accepted (and with which task), what it
    does to the inventory, and what the k-th [task.info] round trip of the
    session returns for a task. *)
Record Platform : Type := {
  submit : Call -> Content -> Exn + Task;
  effect : Call -> Content -> Content;
  task_info : Task -> nat -> Exn + TaskInfo
}.

(** How a computation ends. *)
Inductive Res (A : Type) : Type :=
| Ret (a : A)
| Raise (e : Exn)
| Looping.

Arguments Ret {A} a.
Arguments Raise {A} e.
Arguments Looping {A}.

Definition M (A : Type) : Type := World -> Res A * World.

Definition ret {A} (a : A) : M A := fun w => (Ret a, w).

Definition raise {A} (e : Exn) : M A := fun w => (Raise e, w).

Definition bind {A B} (m : M A) (k : A -> M B) : M B :=
  fun w =>
    match m w with
    | (Ret a, w') => k a w'
    | (Raise e, w') => (Raise e, w')
    | (Looping, w') => (Looping, w')
    end.

(** [try: body  except Exception as e: handler e] *)
Definition try_except {A} (body : M A) (handler : Exn -> M A) : M A :=
  fun w =>
    match body w with
    | (Raise e, w') => handler e w'
    | r => r
    end.

Declare Scope script_scope.
Delimit Scope script_scope with script.
Notation "x <- m ;; k" := (bind m (fun x => k))
  (at level 61, m at next level, right associativity) : script_scope.
Notation "m ;; k" := (bind m (fun _ => k))
  (at level 61, right associativity) : script_scope.
Open Scope script_scope.

Definition log (e : Event) (w : World) : World :=
  {| content := content w; polls := polls w; trace := trace w ++ [e] |}.

Definition print (line : string) : M unit :=
  fun w => (Ret tt, log (EvPrint line) w).

(** [xs[0]] *)
Definition index0 {A} (xs : list A) : M A :=
  match xs with
  | x :: _ => ret x
  | [] => raise IndexError
  end.

(** [o.attr] where [o] may be [None]. *)
Definition attr_of {A B} (attr : string) (f : A -> B) (o : option A) : M B :=
  match o with
  | Some a => ret (f a)
  | None => raise (AttributeError attr)
  end.

(** What a script function hands back to its caller. *)
Inductive Value : Type :=
| VNone
| VTask (t : Task).

(** The lines printed, in order. *)
Fixpoint printed (tr : list Event) : list string :=
  match tr with
  | [] => []
  | EvPrint l :: tr' => l :: printed tr'
  | _ :: tr' => printed tr'
  end.

(** The calls submitted, in order. *)
Fixpoint submitted (tr : list Event) : list Call :=
  match tr with
  | [] => []
  | EvCall c :: tr' => c :: submitted tr'
  | _ :: tr' => submitted tr'
  end.

(** Every pair of task reads has a sleep somewhere between them.
    [slept] says whether a sleep was seen since the last read ([true] before
    the first read). *)
Fixpoint sleeps_between_reads (slept : bool) (tr : list Event) : bool :=
  match tr with
  | [] => true
  | EvRead _ :: tr' => slept && sleeps_between_reads false tr'
  | EvSleep :: tr' => sleeps_between_reads true tr'
  | _ :: tr' => sleeps_between_reads slept tr'
  end.

Section Scripts.

Variable vc : Platform.

(** *** Primitive effects *)

(** [si.RetrieveContent()] and the views built from it. *)
Definition RetrieveContent : M Content := fun w => (Ret (content w), w).

(** A mutating call: logged, applied to the inventory, and answered with a
    task or an exception.  No script reads the inventory again after a call
    it made, so the moment at which the platform applies the change cannot
    be observed from inside one script. *)
Definition call (c : Call) : M Task :=
  fun w =>
    let w' := {| content := effect vc c (content w);
                 polls := polls w;
                 trace := trace w ++ [EvCall c] |} in
    match submit vc c (content w) with
    | inl e => (Raise e, w')
    | inr t => (Ret t, w')
    end.

(** [task.info]: one round trip. *)
Definition info (t : Task) : M TaskInfo :=
  fun w =>
    let w' := {| content := content w;
                 polls := S (polls w);
                 trace := trace w ++ [EvRead t] |} in
    match task_info vc t (polls w) with
    | inl e => (Raise e, w')
    | inr i => (Ret i, w')
    end.

(** *** The wait that follows every submitted task *)

(** [s not in [vim.TaskInfo.State.success, vim.TaskInfo.State.error]] *)
Definition not_terminal (s : State.t) : bool :=
  negb (existsb (State.eqb s) [State.success; State.error]).

(** [while task.info.state not in [success, error]: continue]
    The loop has no bound of its own; [fuel] is the number of times the
    condition may be evaluated before the run is reported as [Looping]. *)
Fixpoint wait_loop (fuel : nat) (task : Task) : M unit :=
  match fuel with
  | O => fun w => (Looping, w)
  | S fuel' =>
      i <- info task ;;
      if not_terminal (state i) then wait_loop fuel' task else ret tt
  end.

(** [if task.info.state == success: print(ok)
     else: print(f"{failed}{task.info.error.msg}")] *)
Definition report (task : Task) (ok failed : string) : M unit :=
  i <- info task ;;
  if State.eqb (state i) State.success then print ok
  else
    i' <- info task ;;
    fault_msg <- attr_of "msg" msg (error i') ;;
    print (failed ++ fault_msg).

(** The loop and the branch together: lines 144-150, 235-240, 258-263,
    291-296 and 412-418 are this text with different messages. *)
Definition wait_for_task (fuel : nat) (task : Task) (ok failed : string) : M unit :=
  wait_loop fuel task ;;
  report task ok failed.

(** The sixth wait, lines 544-546 of [demo_snapshot], after
    [vm.ReconfigVM_Task(config_spec)]: the same loop, then one line whatever
    state ended it. *)
Definition wait_for_reconfig (fuel : nat) (task : Task) : M unit :=
  wait_loop fuel task ;;
  print "✅ VM memory updated.".

(** *** Inventory look-ups *)

(** [vm_exists], lines 91-108: the loop answers [True] at the first VM of
    that name and [False] when the view is exhausted. *)
Definition vm_exists (name : string) : M bool :=
  c <- RetrieveContent ;;
  ret (existsb (fun vm => vm_name vm =? name) (vm_view c)).

(** [get_first_datastore], lines 69-88. *)
Definition get_first_datastore : M (option Datastore) :=
  c <- RetrieveContent ;;
  match datastore_view c with
  | ds :: _ =>
      print ("✅ Found datastore: " ++ ds_name ds) ;;
      ret (Some ds)
  | [] =>
      print "❌ No datastore found." ;;
      ret None
  end.

(** *** create_vm, lines 111-155 *)

Definition create_vm (fuel : nat) (name : string) : M Value :=
  try_except
    (found <- vm_exists name ;;
     if found then
       print ("⚠️ VM '" ++ name ++ "' already exists. Skipping creation.") ;;
       ret VNone
     else
       c <- RetrieveContent ;;
       datacenter <- index0 (rootFolder c) ;;
       let vm_folder := vmFolder datacenter in
       cluster <- index0 (hostFolder datacenter) ;;
       let resource_pool := resourcePool cluster in
       datastore <- get_first_datastore ;;
       datastore_name <- attr_of "name" ds_name datastore ;;
       let vm_config :=
         {| cfg_name := name;
            memoryMB := 128;
            numCPUs := 1;
            guestId := "otherGuest";
            vmPathName := "[" ++ datastore_name ++ "]" |} in
       print ("Creating VM: " ++ name) ;;
       task <- call (CreateVM_Task vm_folder vm_config resource_pool) ;;
       wait_for_task fuel task
         ("✅ VM '" ++ name ++ "' created successfully.")
         "❌ VM creation failed: " ;;
       ret (VTask task))
    (fun e =>
       print ("❌ Error during VM creation: " ++ str_exn e) ;;
       ret VNone).

(** *** control_vm_power, lines 180-219

    The [for] loop leaves the function at the first VM of the given name on
    every path, so it is a [find] over the view. *)
Definition control_vm_power (name : string) (action : PowerAction) : M Value :=
  c <- RetrieveContent ;;
  match find (fun vm => vm_name vm =? name) (vm_view c) with
  | Some vm =>
      try_except
        (match action with
         | POWER_ON =>
             if negb (PowerState_eqb (powerState vm) poweredOn) then
               print ("🔌 Powering ON VM: " ++ name) ;;
               _ <- call (PowerOn vm) ;;
               ret tt
             else
               print ("⚠️ VM '" ++ name ++ "' is already powered on.")
         | POWER_OFF =>
             if negb (PowerState_eqb (powerState vm) poweredOff) then
               print ("⏻ Powering OFF VM: " ++ name) ;;
               _ <- call (PowerOff vm) ;;
               ret tt
             else
               print ("⚠️ VM '" ++ name ++ "' is already powered off.")
         | REBOOT =>
             if PowerState_eqb (powerState vm) poweredOn then
               print ("🔄 Rebooting VM: " ++ name) ;;
               _ <- call (PowerOff vm) ;;
               _ <- call (PowerOn vm) ;;
               ret tt
             else
               print ("⚠️ Cannot reboot. VM '" ++ name ++ "' is not powered on.")
         end ;;
         ret VNone)
        (fun e =>
           print ("❌ Failed to " ++ action_value action ++ " VM '" ++ name
                  ++ "': " ++ str_exn e) ;;
           ret VNone)
  | None =>
      print ("❌ VM '" ++ name ++ "' not found.") ;;
      ret VNone
  end.

(** *** take_snapshot, lines 221-245 *)

Definition take_snapshot (fuel : nat) (name snapshot_name description : string)
  : M Value :=
  c <- RetrieveContent ;;
  match find (fun vm => vm_name vm =? name) (vm_view c) with
  | Some vm =>
      try_except
        (print ("📸 Taking snapshot of VM: " ++ name) ;;
         task <- call (CreateSnapshot_Task vm snapshot_name description false false) ;;
         wait_for_task fuel task
           ("✅ Snapshot '" ++ snapshot_name ++ "' created successfully.")
           "❌ Snapshot creation failed: " ;;
         ret VNone)
        (fun e =>
           print ("❌ Failed to take snapshot: " ++ str_exn e) ;;
           ret VNone)
  | None =>
      print ("❌ VM '" ++ name ++ "' not found.") ;;
      ret VNone
  end.

(** *** revert_to_snapshot, lines 247-269 *)

Definition has_snapshot (vm : VirtualMachine) : bool :=
  match snapshot vm with Some _ => true | None => false end.

Definition revert_to_snapshot (fuel : nat) (name snapshot_name : string) : M Value :=
  c <- RetrieveContent ;;
  match find (fun vm => (vm_name vm =? name) && has_snapshot vm) (vm_view c) with
  | Some vm =>
      try_except
        (trees <- attr_of "rootSnapshotList" rootSnapshotList (snapshot vm) ;;
         match find (fun tree => tree_name tree =? snapshot_name) trees with
         | Some tree =>
             print ("⏪ Reverting VM '" ++ name ++ "' to snapshot '"
                    ++ snapshot_name ++ "'") ;;
             task <- call (RevertToSnapshot_Task (tree_snapshot tree)) ;;
             wait_for_task fuel task
               ("✅ Reverted to snapshot '" ++ snapshot_name ++ "'")
               "❌ Revert failed: " ;;
             ret VNone
         | None =>
             print ("⚠️ Snapshot '" ++ snapshot_name ++ "' not found.") ;;
             ret VNone
         end)
        (fun e =>
           print ("❌ Error reverting to snapshot: " ++ str_exn e) ;;
           ret VNone)
  | None =>
      print ("❌ VM '" ++ name ++ "' not found or has no snapshots.") ;;
      ret VNone
  end.

(** *** clone_vm_from_template, lines 348-418 *)

(** Truth value of an optional string argument: [None] and the empty string
    are false. *)
Definition given (o : option string) : bool :=
  match o with
  | Some s => negb (s =? "")
  | None => false
  end.

Definition is_name (o : option string) (n : string) : bool :=
  match o with
  | Some s => n =? s
  | None => false
  end.

(** Lines 390-394: the [break] leaves the inner loop only, so a later
    cluster with a matching pool replaces an earlier one. *)
Definition find_resource_pool (clusters : list ComputeResource)
    (resource_pool_name : option string) : option ResourcePool :=
  fold_left
    (fun found cluster =>
       match find (fun rp => is_name resource_pool_name (rp_name rp))
                  (rp_children (resourcePool cluster)) with
       | Some rp => Some rp
       | None => found
       end)
    clusters None.

Definition is_template (template_name : string) (e : Entity) : bool :=
  match e with
  | EntityVM vm => vm_name vm =? template_name
  | EntityFolder _ => false
  end.

Definition clone_vm_from_template (fuel : nat) (template_name new_vm_name : string)
    (datacenter_name datastore_name resource_pool_name : option string)
    (power_on : bool) : M Value :=
  c <- RetrieveContent ;;
  match find (fun dc => negb (given datacenter_name)
                        || is_name datacenter_name (dc_name dc))
             (rootFolder c) with
  | None =>
      print "❌ Datacenter not found." ;;
      ret VNone
  | Some datacenter =>
      match find (is_template template_name) (vmFolder datacenter) with
      | Some (EntityVM template_vm) =>
          datastore <-
            (if given datastore_name then
               ret (find (fun ds => is_name datastore_name (ds_name ds))
                         (dc_datastore datacenter))
             else get_first_datastore) ;;
          match datastore with
          | None =>
              print "❌ Datastore not found." ;;
              ret VNone
          | Some _ =>
              resource_pool <-
                (if given resource_pool_name then
                   ret (find_resource_pool (hostFolder datacenter) resource_pool_name)
                 else
                   cluster <- index0 (hostFolder datacenter) ;;
                   ret (Some (resourcePool cluster))) ;;
              let clone_spec :=
                {| location_datastore := datastore;
                   location_pool := resource_pool;
                   powerOn := power_on |} in
              print ("🛠️ Cloning VM '" ++ new_vm_name ++ "' from template '"
                     ++ template_name ++ "'...") ;;
              task <- call (Clone template_vm (vmFolder datacenter)
                                  new_vm_name clone_spec) ;;
              wait_for_task fuel task
                ("✅ VM '" ++ new_vm_name ++ "' cloned successfully.")
                "❌ Clone failed: " ;;
              ret VNone
          end
      | _ =>
          print ("❌ Template '" ++ template_name ++ "' not found.") ;;
          ret VNone
      end
  end.

(** *** monitor_recent_vm_events, lines 478-513 *)

(** A connected session, as [connect_to_vcenter] returns it. *)
Variant ServiceInstance : Type := Session.

(** Lines 499-500: [event.vm] is there and is a [vim.event.VmEvent], and
    the event is a power-on or a power-off. *)
Definition is_vm_power_event (ev : VcEvent) : bool :=
  match ev_vm ev with
  | Some (VmEventInstance _) => is_power_event ev
  | Some (VmEventArgument _) => false
  | None => false
  end.

(** [event.vm.name] *)
Definition vm_name_of (ev : VcEvent) : M string :=
  match ev_vm ev with
  | Some (VmEventArgument name) => ret name
  | Some (VmEventInstance no_name) => raise no_name
  | None => raise (AttributeError "name")
  end.

(** Lines 501-505: what is printed for one event. *)
Definition print_event (ev : VcEvent) : M unit :=
  print ("Time: " ++ createdTime ev) ;;
  vm <- vm_name_of ev ;;
  print ("VM: " ++ vm) ;;
  print ("User: " ++ userName ev) ;;
  print ("Event: " ++ type_name ev) ;;
  print "----------------------------------------".

(** Lines 498-508: the loop over the events, from the current [count] to
    the count it ends with. *)
Fixpoint events_loop (events : list VcEvent) (count max_events : Z) : M Z :=
  match events with
  | [] => ret count
  | ev :: rest =>
      if is_vm_power_event ev then
        print_event ev ;;
        let count := (count + 1)%Z in
        if (count >=? max_events)%Z then ret count
        else events_loop rest count max_events
      else events_loop rest count max_events
  end.

(** Decimal text of a Python [int], for the header line. *)
Definition str_int (z : Z) : string := NilZero.string_of_int (Z.to_int z).

(** The line feed that opens the header line. *)
Definition newline : string := String (ascii_of_nat 10) "".

Definition monitor_recent_vm_events (si : option ServiceInstance) (max_events : Z)
  : M Value :=
  match si with
  | None =>
      print "No connection to vCenter." ;;
      ret VNone
  | Some _ =>
      c <- RetrieveContent ;;
      try_except
        (print (newline ++ "📋 Recent VM Power Events (up to "
                ++ str_int max_events ++ "):") ;;
         events <- (match recent_events c with
                    | inl e => raise e
                    | inr evs => ret evs
                    end) ;;
         count <- events_loop events 0%Z max_events ;;
         (if (count =? 0)%Z then print "No recent VM power events found."
          else ret tt) ;;
         ret VNone)
        (fun e =>
           print ("❌ Failed to retrieve events: " ++ str_exn e) ;;
           ret VNone)
  end.

End Scripts.

(** ** Vocabulary of the statements *)

(** The world after [n] more [task.info] round trips on [t] and nothing
    else. *)
Definition advance (t : Task) (n : nat) (w : World) : World :=
  {| content := content w;
     polls := n + polls w;
     trace := trace w ++ repeat (EvRead t) n |}.

Section Observations.

Variable vc : Platform.

(** What the k-th round trip of the session shows of task [t], in the words
    of the task life cycle: still pending (queued or running), succeeded,
    or failed with the platform's reason. *)
Definition Pending (t : Task) (k : nat) : Prop :=
  exists i, task_info vc t k = inr i /\ not_terminal (state i) = true.

Definition Succeeded (t : Task) (k : nat) : Prop :=
  exists i, task_info vc t k = inr i /\ state i = State.success.

Definition Failed (t : Task) (k : nat) (reason : string) : Prop :=
  task_info vc t k
  = inr {| state := State.error; error := Some {| msg := reason |} |}.

End Observations.

(** The state in which an action has nothing to do. *)
Definition rest_state (action : PowerAction) : option PowerState :=
  match action with
  | POWER_ON => Some poweredOn
  | POWER_OFF => Some poweredOff
  | REBOOT => None
  end.

(** The line both functions print when no VM has the name. *)
Definition not_found_line (name : string) : string :=
  "❌ VM '" ++ name ++ "' not found.".


(** An event as the platform builds it: [event.vm], when it is there, is a
    [vim.event.VmEventArgument]. *)
Definition sdk_event (ev : VcEvent) : bool :=
  match ev_vm ev with
  | Some (VmEventInstance _) => false
  | _ => true
  end.


(** ** Concrete platforms and worlds for the examples *)

Definition empty_content : Content :=
  {| rootFolder := []; vm_view := []; datastore_view := [];
     recent_events := inr [] |}.

Definition world0 : World :=
  {| content := empty_content; polls := 0; trace := [] |}.

Definition info_of (s : State.t) : TaskInfo := {| state := s; error := None |}.

(** A platform that accepts every call with task 0 and changes nothing,
    whose tasks show [script k] at the k-th round trip. *)
Definition scripted (script : nat -> Exn + TaskInfo) : Platform :=
  {| submit := fun _ _ => inr 0;
     effect := fun _ c => c;
     task_info := fun _ k => script k |}.

(** The task has succeeded before the first read. *)
Definition done_at_once : Platform :=
  scripted (fun _ => inr (info_of State.success)).

(** Two reads show the task running, then it has succeeded. *)
Definition done_after_two : Platform :=
  scripted (fun k => inr (info_of (if (k <? 2)%nat then State.running else State.success))).

(** One read shows the task queued, then it has failed. *)
Definition fails_after_one : Platform :=
  scripted (fun k =>
    inr (if (k <? 1)%nat then info_of State.queued
         else {| state := State.error;
                 error := Some {| msg := "insufficient resources" |} |})).

(** The task never leaves [running]. *)
Definition never_done : Platform :=
  scripted (fun _ => inr (info_of State.running)).

(** The connection drops at the third read. *)
Definition drops_at_third : Platform :=
  scripted (fun k => if (k <? 2)%nat then inr (info_of State.running)
                     else inl (Fault "connection reset")).

(** A platform on which powering on is refused and every other call is
    accepted with a task that fails at once. *)
Definition power_refused : Platform :=
  {| submit := fun c _ =>
       match c with
       | PowerOn _ => inl (Fault "host is in maintenance mode")
       | _ => inr 7
       end;
     effect := fun _ c => c;
     task_info := fun _ _ =>
       inr {| state := State.error;
              error := Some {| msg := "disk is full" |} |} |}.

Definition vm_running : VirtualMachine :=
  {| vm_name := "Shital_TestVM"; powerState := poweredOn; snapshot := None |}.

Definition vm_stopped : VirtualMachine :=
  {| vm_name := "Shital_TestVM"; powerState := poweredOff; snapshot := None |}.

Definition world_of (vms : list VirtualMachine) : World :=
  {| content := {| rootFolder := []; vm_view := vms; datastore_view := [];
                   recent_events := inr [] |};
     polls := 0;
     trace := [] |}.

(** A platform that refuses every call and every read with [e]. *)
Definition refusing (e : Exn) : Platform :=
  {| submit := fun _ _ => inl e;
     effect := fun _ c => c;
     task_info := fun _ _ => inl e |}.

Definition power_on_event : VcEvent :=
  {| type_name := "vim.event.VmPoweredOnEvent";
     is_power_event := true;
     ev_vm := Some (VmEventArgument "DC0_H0_VM0");
     createdTime := "2024-05-01 10:00:00";
     userName := "root" |}.

Definition world_with_events (evs : list VcEvent) : World :=
  {| content := {| rootFolder := []; vm_view := []; datastore_view := [];
                   recent_events := inr evs |};
     polls := 0;
     trace := [] |}.

Definition template_vm : VirtualMachine :=
  {| vm_name := "TemplateVM";
     powerState := poweredOff;
     snapshot := Some {| rootSnapshotList :=
                           [{| tree_name := "InitialSnap"; tree_snapshot := 11 |}];
                         currentSnapshot := 11 |} |}.

Definition dc0 : Datacenter :=
  {| dc_name := "DC0";
     vmFolder := [EntityFolder "Discovered"; EntityVM template_vm];
     hostFolder := [{| resourcePool := Pool "Resources" [] |}];
     dc_datastore := [{| ds_name := "LocalDS_0" |}] |}.

Definition lab : World :=
  {| content := {| rootFolder := [dc0];
                   vm_view := [template_vm];
                   datastore_view := [{| ds_name := "LocalDS_0" |}];
                   recent_events := inr [] |};
     polls := 0;
     trace := [] |}.

(** ** Proof steps used more than once *)

(** Two worlds with the same fields, up to the bracketing of the trace. *)
Ltac same_world :=
  unfold print, log, advance; simpl; rewrite <- ?app_assoc; simpl; reflexivity.

(** The read [k] of a run that starts at [polls w] and makes one read, or
    two. *)
Ltac first_read k w :=
  assert (k = polls w) by (simpl in *; lia); subst k.

Ltac second_read k w :=
  destruct (Nat.eq_dec k (polls w)) as [->|?];
  [|assert (k = S (polls w)) by (simpl in *; lia); subst k].

(** ** The wait: basic facts *)

Section WaitFacts.

Variable vc : Platform.

Lemma advance_0 t w : advance t 0 w = w.
Proof. destruct w; unfold advance; simpl. now rewrite app_nil_r. Qed.

Lemma advance_advance t n m w :
  advance t m (advance t n w) = advance t (n + m) w.
Proof.
  unfold advance; simpl. f_equal; [lia|].
  now rewrite <- app_assoc, <- repeat_app.
Qed.

Lemma polls_advance t n w : polls (advance t n w) = n + polls w.
Proof. reflexivity. Qed.

Lemma info_returns t w i :
  task_info vc t (polls w) = inr i -> info vc t w = (Ret i, advance t 1 w).
Proof. intros H. unfold info. now rewrite H. Qed.

Lemma info_raises t w e :
  task_info vc t (polls w) = inl e -> info vc t w = (Raise e, advance t 1 w).
Proof. intros H. unfold info. now rewrite H. Qed.

(** [n] pending reads cost [n] turns of the loop and leave it running. *)
Lemma wait_loop_pending t n : forall fuel w,
  (forall k, k < n -> Pending vc t (polls w + k)) ->
  wait_loop vc (n + fuel) t w = wait_loop vc fuel t (advance t n w).
Proof.
  induction n as [|n IH]; intros fuel w Hp.
  - now rewrite advance_0.
  - destruct (Hp 0) as (i & Hi & Hs); [lia|].
    rewrite Nat.add_0_r in Hi.
    change (S n + fuel) with (S (n + fuel)).
    simpl wait_loop. unfold bind at 1.
    rewrite (info_returns _ _ _ Hi), Hs.
    rewrite IH.
    + now rewrite advance_advance.
    + intros k Hk. rewrite polls_advance.
      replace (1 + polls w + k) with (polls w + S k) by lia.
      apply Hp. lia.
Qed.

(** The loop ends at the first read that shows a terminal state. *)
Lemma wait_loop_terminal t fuel w i :
  task_info vc t (polls w) = inr i -> not_terminal (state i) = false ->
  wait_loop vc (S fuel) t w = (Ret tt, advance t 1 w).
Proof.
  intros Hi Hs. simpl. unfold bind.
  now rewrite (info_returns _ _ _ Hi), Hs.
Qed.

(** A read that raises ends the loop with that exception. *)
Lemma wait_loop_raises t fuel w e :
  task_info vc t (polls w) = inl e ->
  wait_loop vc (S fuel) t w = (Raise e, advance t 1 w).
Proof.
  intros He. simpl. unfold bind.
  now rewrite (info_raises _ _ _ He).
Qed.

End WaitFacts.

Section ReportFacts.

Variable vc : Platform.

(** The branch after the loop, when its own read shows [success]. *)
Lemma report_success t ok failed w i :
  task_info vc t (polls w) = inr i -> state i = State.success ->
  report vc t ok failed w = (Ret tt, log (EvPrint ok) (advance t 1 w)).
Proof.
  intros Hi Hs. unfold report, bind.
  now rewrite (info_returns vc _ _ _ Hi), Hs.
Qed.

(** The branch after the loop, when its own read shows another state: the
    reason is taken from one more read. *)
Lemma report_failure t ok failed w i i' f :
  task_info vc t (polls w) = inr i -> State.eqb (state i) State.success = false ->
  task_info vc t (S (polls w)) = inr i' -> error i' = Some f ->
  report vc t ok failed w
  = (Ret tt, log (EvPrint (failed ++ msg f)) (advance t 2 w)).
Proof.
  intros Hi Hs Hi' Hf. unfold report, bind.
  rewrite (info_returns vc _ _ _ Hi), Hs.
  rewrite (info_returns vc t (advance t 1 w) i') by exact Hi'.
  rewrite Hf. simpl. now rewrite advance_advance.
Qed.

(** Every run of the loop is a run of reads and nothing else; a read that
    raised is the last one, and its exception is the outcome. *)
Lemma wait_loop_run t : forall fuel w,
  exists n,
    snd (wait_loop vc fuel t w) = advance t n w /\
    forall k e, polls w <= k < n + polls w -> task_info vc t k = inl e ->
      fst (wait_loop vc fuel t w) = Raise e /\ n + polls w = S k.
Proof.
  induction fuel as [|fuel IH]; intros w.
  - exists 0. split; [now rewrite advance_0|]. intros k e Hk. lia.
  - simpl wait_loop. unfold bind.
    destruct (task_info vc t (polls w)) as [e0|i] eqn:Hq.
    + rewrite (info_raises vc _ _ _ Hq). exists 1. split; [reflexivity|].
      intros k e Hk He. assert (k = polls w) by lia. subst k.
      rewrite Hq in He. injection He as ->. simpl. split; [reflexivity|lia].
    + rewrite (info_returns vc _ _ _ Hq).
      destruct (not_terminal (state i)).
      * destruct (IH (advance t 1 w)) as (n & Hw & Hr).
        exists (1 + n). split; [now rewrite Hw, advance_advance|].
        intros k e Hk He. rewrite polls_advance in Hr.
        destruct (Nat.eq_dec k (polls w)) as [->|Hne].
        -- rewrite Hq in He. discriminate He.
        -- destruct (Hr k e) as [H1 H2]; [lia|exact He|]. split; [exact H1|lia].
      * exists 1. split; [reflexivity|].
        intros k e Hk He. assert (k = polls w) by lia. subst k.
        rewrite Hq in He. discriminate He.
Qed.

(** The same for the branch: one or two reads, then at most one line. *)
Lemma report_run t ok failed w :
  exists n lines,
    snd (report vc t ok failed w)
    = {| content := content w;
         polls := n + polls w;
         trace := trace w ++ repeat (EvRead t) n ++ map EvPrint lines |} /\
    length lines <= 1 /\
    forall k e, polls w <= k < n + polls w -> task_info vc t k = inl e ->
      fst (report vc t ok failed w) = Raise e /\ n + polls w = S k /\ lines = [].
Proof.
  unfold report, bind.
  destruct (task_info vc t (polls w)) as [e0|i] eqn:Hq.
  - rewrite (info_raises vc _ _ _ Hq). exists 1, [].
    split; [same_world|]. split; [simpl; lia|].
    intros k e Hk He. first_read k w.
    rewrite Hq in He. injection He as ->. simpl. auto.
  - rewrite (info_returns vc _ _ _ Hq).
    destruct (State.eqb (state i) State.success).
    + exists 1, [ok].
      split; [same_world|]. split; [simpl; lia|].
      intros k e Hk He. first_read k w. congruence.
    + destruct (task_info vc t (S (polls w))) as [e1|i'] eqn:Hq'.
      * rewrite (info_raises vc t (advance t 1 w) e1) by exact Hq'.
        exists 2, []. simpl.
        split; [same_world|]. split; [lia|].
        intros k e Hk He. second_read k w; [congruence|].
        rewrite Hq' in He. injection He as ->. auto.
      * rewrite (info_returns vc t (advance t 1 w) i') by exact Hq'.
        destruct (error i') as [f|]; simpl.
        -- exists 2, [failed ++ msg f]. simpl.
           split; [same_world|]. split; [lia|].
           intros k e Hk He. second_read k w; congruence.
        -- exists 2, []. simpl.
           split; [same_world|]. split; [lia|].
           intros k e Hk He. second_read k w; congruence.
Qed.

End ReportFacts.

(** ** Reading traces *)

Lemma printed_app (a b : list Event) :
  printed (a ++ b) = (printed a ++ printed b)%list.
Proof.
  induction a as [|[c|t|l|] a IH]; simpl; try exact IH.
  - reflexivity.
  - now rewrite IH.
Qed.

Lemma submitted_app (a b : list Event) :
  submitted (a ++ b) = (submitted a ++ submitted b)%list.
Proof.
  induction a as [|[c|t|l|] a IH]; simpl; try exact IH.
  - reflexivity.
  - now rewrite IH.
Qed.

Lemma printed_reads t n : printed (repeat (EvRead t) n) = [].
Proof. induction n; simpl; auto. Qed.

(** ** The task-completion wait *)

(** The succeeding run of a wait with a branch: the loop stops at the read
    that shows success, and the branch reads [task.info.state] once more
    before it prints. *)
Lemma wait_for_task_success_run
    (vc : Platform) (t : Task) (n fuel : nat) (ok failed : string) (w : World) :
  (forall k, k < n -> Pending vc t (polls w + k)) ->
  Succeeded vc t (polls w + n) ->
  Succeeded vc t (polls w + n + 1) ->
  n < fuel ->
  exists w',
    wait_for_task vc fuel t ok failed w = (Ret tt, w') /\
    polls w' = polls w + n + 2 /\
    trace w' = (trace w ++ repeat (EvRead t) (n + 2) ++ [EvPrint ok])%list /\
    printed (trace w') = (printed (trace w) ++ [ok])%list /\
    content w' = content w.
Proof.
  intros Hp (i & Hi & Hs) (i' & Hi' & Hs') Hfuel.
  exists (log (EvPrint ok) (advance t (n + 2) w)).
  split.
  - unfold wait_for_task, bind.
    replace fuel with (n + S (fuel - S n)) by lia.
    rewrite (wait_loop_pending vc t n _ w Hp).
    rewrite (wait_loop_terminal vc t _ (advance t n w) i).
    + rewrite (report_success vc t ok failed (advance t 1 (advance t n w)) i').
      * rewrite !advance_advance. now replace (n + 1 + 1) with (n + 2) by lia.
      * simpl. now replace (S (n + polls w)) with (polls w + n + 1) by lia.
      * exact Hs'.
    + simpl. now rewrite Nat.add_comm.
    + unfold not_terminal. now rewrite Hs.
  - split; [simpl; lia|]. split; [same_world|]. split; [|reflexivity].
    simpl. now rewrite !printed_app, printed_reads, app_nil_r.
Qed.

(** The run of the wait without a branch: the loop stops at the first read
    that shows a terminal state, whichever it is, and the line follows. *)
Lemma wait_for_reconfig_run
    (vc : Platform) (t : Task) (n fuel : nat) (w : World) (i : TaskInfo) :
  (forall k, k < n -> Pending vc t (polls w + k)) ->
  task_info vc t (polls w + n) = inr i ->
  not_terminal (state i) = false ->
  n < fuel ->
  wait_for_reconfig vc fuel t w
  = (Ret tt, log (EvPrint "✅ VM memory updated.") (advance t (n + 1) w)).
Proof.
  intros Hp Hi Hs Hfuel. unfold wait_for_reconfig, bind.
  replace fuel with (n + S (fuel - S n)) by lia.
  rewrite (wait_loop_pending vc t n _ w Hp).
  rewrite (wait_loop_terminal vc t _ (advance t n w) i).
  - now rewrite advance_advance.
  - simpl. now rewrite Nat.add_comm.
  - exact Hs.
Qed.

(** C1 (as amended).  Take [n] reads that show the task pending and a next
    one that shows it succeeded.  The five waits that are followed by the
    if/else branch (lines 144-150, 235-240, 258-263, 291-296, 412-418) report
    success exactly once, but after [n + 2] reads, not [n + 1]: the branch
    reads [task.info.state] once more before it prints, and prints the
    success line when that read shows success too.  The sixth wait (lines
    544-546, after [ReconfigVM_Task]) has no branch: it prints its line
    exactly once right after the read that showed success, after [n + 1]
    reads and no further one.  Neither touches anything else. *)
Theorem wait_reports_success_once
    (vc : Platform) (t : Task) (n fuel : nat) (ok failed : string) (w : World) :
  (forall k, k < n -> Pending vc t (polls w + k)) ->
  Succeeded vc t (polls w + n) ->
  n < fuel ->
  (Succeeded vc t (polls w + n + 1) ->
   exists w',
     wait_for_task vc fuel t ok failed w = (Ret tt, w') /\
     polls w' = polls w + n + 2 /\
     trace w' = (trace w ++ repeat (EvRead t) (n + 2) ++ [EvPrint ok])%list /\
     printed (trace w') = (printed (trace w) ++ [ok])%list /\
     content w' = content w) /\
  (exists w',
     wait_for_reconfig vc fuel t w = (Ret tt, w') /\
     polls w' = polls w + n + 1 /\
     trace w' = (trace w ++ repeat (EvRead t) (n + 1)
                 ++ [EvPrint "✅ VM memory updated."])%list /\
     printed (trace w') = (printed (trace w) ++ ["✅ VM memory updated."])%list /\
     content w' = content w).
Proof.
  intros Hp Hs Hfuel. split.
  - intros Hs'.
    exact (wait_for_task_success_run vc t n fuel ok failed w Hp Hs Hs' Hfuel).
  - destruct Hs as (i & Hi & Hsi).
    exists (log (EvPrint "✅ VM memory updated.") (advance t (n + 1) w)).
    split.
    + apply (wait_for_reconfig_run vc t n fuel w i Hp Hi); [|exact Hfuel].
      unfold not_terminal. now rewrite Hsi.
    + split; [simpl; lia|]. split; [same_world|]. split; [|reflexivity].
      simpl. now rewrite !printed_app, printed_reads, app_nil_r.
Qed.

Lemma wait_reports_success_once_witness :
  (exists w',
     wait_for_task done_after_two 5 0 "created" "failed: " world0 = (Ret tt, w') /\
     polls w' = polls world0 + 2 + 2 /\
     trace w' = (trace world0 ++ repeat (EvRead 0) (2 + 2)
                 ++ [EvPrint "created"])%list /\
     printed (trace w') = (printed (trace world0) ++ ["created"])%list /\
     content w' = content world0) /\
  (exists w',
     wait_for_reconfig done_after_two 5 0 world0 = (Ret tt, w') /\
     polls w' = polls world0 + 2 + 1 /\
     trace w' = (trace world0 ++ repeat (EvRead 0) (2 + 1)
                 ++ [EvPrint "✅ VM memory updated."])%list /\
     printed (trace w')
     = (printed (trace world0) ++ ["✅ VM memory updated."])%list /\
     content w' = content world0).
Proof.
  destruct (wait_reports_success_once done_after_two 0 2 5 "created" "failed: "
              world0) as [Hbranch Hplain].
  - intros k Hk. exists (info_of State.running). simpl.
    destruct k as [|[|k]]; [split; reflexivity .. | lia].
  - exists (info_of State.success). split; reflexivity.
  - lia.
  - split; [|exact Hplain].
    apply Hbranch. exists (info_of State.success). split; reflexivity.
Defined.

(** C1 (as stated) fails.  The task of [done_at_once] shows success at the
    very first read, so the sequence of observations is "no pending read,
    then succeeded"; the wait nevertheless reads the task a second time
    before it reports: two reads where the claim allows one. *)
Lemma wait_rereads_after_success :
  Succeeded done_at_once 0 (polls world0 + 0) /\
  wait_for_task done_at_once 1 0 "created" "failed: " world0
  = (Ret tt, {| content := empty_content;
                polls := 2;
                trace := [EvRead 0; EvRead 0; EvPrint "created"] |}) /\
  2 <> polls world0 + 0 + 1.
Proof.
  split; [|split].
  - exists (info_of State.success). split; reflexivity.
  - reflexivity.
  - simpl. lia.
Qed.

(** The failing run, spelled out: the loop ends at the first read that shows
    [error], the branch reads the state again and then the fault. *)
Lemma wait_failure_run
    (vc : Platform) (t : Task) (n fuel : nat) (ok failed reason : string)
    (w : World) :
  (forall k, k < n -> Pending vc t (polls w + k)) ->
  (forall k, n <= k -> Failed vc t (polls w + k) reason) ->
  n < fuel ->
  wait_for_task vc fuel t ok failed w
  = (Ret tt, log (EvPrint (failed ++ reason)) (advance t (n + 3) w)).
Proof.
  intros Hp Hf Hfuel.
  unfold wait_for_task, bind.
  replace fuel with (n + S (fuel - S n)) by lia.
  rewrite (wait_loop_pending vc t n _ w Hp).
  rewrite (wait_loop_terminal vc t _ (advance t n w)
             {| state := State.error; error := Some {| msg := reason |} |}).
  - rewrite (report_failure vc t ok failed (advance t 1 (advance t n w))
               {| state := State.error; error := Some {| msg := reason |} |}
               {| state := State.error; error := Some {| msg := reason |} |}
               {| msg := reason |}).
    + rewrite !advance_advance. now replace (n + 1 + 2) with (n + 3) by lia.
    + simpl. replace (S (n + polls w)) with (polls w + (n + 1)) by lia.
      apply Hf. lia.
    + reflexivity.
    + simpl. replace (S (S (n + polls w))) with (polls w + (n + 2)) by lia.
      apply Hf. lia.
    + reflexivity.
  - simpl. rewrite Nat.add_comm. apply Hf. lia.
  - reflexivity.
Qed.

(** The five waits with a branch report the reason.  When [n] reads show
    the task pending and from then on it shows [Failed reason] (a failed task
    stays failed), such a wait returns and reports the failure in one line:
    the fixed prefix of the call site followed by the platform's reason,
    character for character.  The reason printed is the one of the third
    read made after the pending ones. *)
Lemma wait_reports_failure_reason
    (vc : Platform) (t : Task) (n fuel : nat) (ok failed reason : string)
    (w : World) :
  (forall k, k < n -> Pending vc t (polls w + k)) ->
  (forall k, n <= k -> Failed vc t (polls w + k) reason) ->
  n < fuel ->
  exists w',
    wait_for_task vc fuel t ok failed w = (Ret tt, w') /\
    trace w' = (trace w ++ repeat (EvRead t) (n + 3)
                ++ [EvPrint (failed ++ reason)%string])%list /\
    printed (trace w') = (printed (trace w) ++ [(failed ++ reason)%string])%list.
Proof.
  intros Hp Hf Hfuel.
  exists (log (EvPrint (failed ++ reason)) (advance t (n + 3) w)).
  split; [exact (wait_failure_run vc t n fuel ok failed reason w Hp Hf Hfuel)|].
  split; [same_world|].
  simpl. now rewrite !printed_app, printed_reads, app_nil_r.
Qed.

Lemma wait_reports_failure_reason_witness :
  exists w',
    wait_for_task fails_after_one 4 0 "created" "VM creation failed: " world0
    = (Ret tt, w') /\
    trace w' = (trace world0 ++ repeat (EvRead 0) (1 + 3)
                ++ [EvPrint "VM creation failed: insufficient resources"])%list /\
    printed (trace w')
    = (printed (trace world0)
       ++ ["VM creation failed: insufficient resources"])%list.
Proof.
  apply (wait_reports_failure_reason fails_after_one 0 1 4 "created"
           "VM creation failed: " "insufficient resources" world0).
  - intros k Hk. exists (info_of State.queued).
    destruct k as [|k]; [split; reflexivity | lia].
  - intros k Hk. unfold Failed. simpl.
    destruct k as [|k]; [lia | reflexivity].
  - lia.
Defined.

(** C2 at the input where it fails.  The task of [fails_after_one] is shown
    queued once and failed from then on, with the reason "insufficient
    resources".  The wait of [revert_to_snapshot], like the other four with
    a branch, prints that reason; the wait after [ReconfigVM_Task] (lines
    544-546) has no branch: it prints "VM memory updated." for the failed
    task, after two reads, and never looks at [task.info.error]. *)
Theorem reconfig_wait_reports_success_on_failure :
  Pending fails_after_one 0 0 /\
  Failed fails_after_one 0 1 "insufficient resources" /\
  wait_for_reconfig fails_after_one 5 0 world0
  = (Ret tt, {| content := empty_content;
                polls := 2;
                trace := [EvRead 0; EvRead 0; EvPrint "✅ VM memory updated."] |}) /\
  printed (trace (snd (wait_for_task fails_after_one 5 0
                         "✅ Reverted to snapshot 'InitialSnap'"
                         "❌ Revert failed: " world0)))
  = ["❌ Revert failed: insufficient resources"].
Proof.
  split; [|split; [|split]].
  - exists (info_of State.queued). split; reflexivity.
  - reflexivity.
  - reflexivity.
  - reflexivity.
Qed.

(** A read that raised is the last effect of the run it belongs to. *)
Lemma wait_stops_at_raising_read
    (vc : Platform) (t : Task) (fuel : nat) (ok failed : string) (w : World)
    (k : nat) (e : Exn) :
  polls w <= k < polls (snd (wait_for_task vc fuel t ok failed w)) ->
  task_info vc t k = inl e ->
  wait_for_task vc fuel t ok failed w = (Raise e, advance t (S k - polls w) w).
Proof.
  unfold wait_for_task, bind.
  destruct (wait_loop_run vc t fuel w) as (n1 & Hw1 & Hr1).
  destruct (wait_loop vc fuel t w) as [r1 w1] eqn:Hloop. simpl in Hw1, Hr1.
  subst w1.
  destruct r1 as [[]|e1|]; cbn [snd].
  - (* the loop returned: the read that raised belongs to the branch *)
    destruct (report_run vc t ok failed (advance t n1 w)) as (n2 & lines & Hw2 & _ & Hr2).
    destruct (report vc t ok failed (advance t n1 w)) as [r2 w2] eqn:Hrep.
    simpl in Hw2, Hr2. subst w2. cbn [snd].
    intros Hk He. simpl in Hk.
    assert (Hin : n1 + polls w <= k).
    { destruct (Nat.le_gt_cases (n1 + polls w) k) as [H|H]; [exact H|].
      destruct (Hr1 k e) as [Habs _]; [lia|exact He|discriminate Habs]. }
    destruct (Hr2 k e) as (-> & Hn & ->); [lia|exact He|].
    replace (S k - polls w) with (n1 + n2) by lia.
    rewrite <- advance_advance. f_equal.
    unfold advance; simpl. now rewrite app_nil_r.
  - intros Hk He. simpl in Hk.
    destruct (Hr1 k e) as [Heq Hn]; [lia|exact He|].
    injection Heq as ->. now replace (S k - polls w) with n1 by lia.
  - intros Hk He. simpl in Hk.
    destruct (Hr1 k e) as [Heq Hn]; [lia|exact He|].
    discriminate Heq.
Qed.

(** A loop that has ended does the same with a larger budget. *)
Lemma wait_loop_more_fuel (vc : Platform) (t : Task) : forall fuel w,
  fst (wait_loop vc fuel t w) <> Looping ->
  forall fuel', fuel <= fuel' ->
  wait_loop vc fuel' t w = wait_loop vc fuel t w.
Proof.
  induction fuel as [|fuel IH]; intros w Hend fuel' Hle.
  - exfalso. apply Hend. reflexivity.
  - destruct fuel' as [|fuel']; [lia|].
    simpl in *. unfold bind in *.
    destruct (info vc t w) as [[i|e|] w1]; try reflexivity.
    destruct (not_terminal (state i)); [|reflexivity].
    apply IH; [exact Hend|lia].
Qed.

Lemma wait_for_task_more_fuel
    (vc : Platform) (t : Task) (fuel : nat) (ok failed : string) (w : World) :
  fst (wait_for_task vc fuel t ok failed w) <> Looping ->
  forall fuel', fuel <= fuel' ->
  wait_for_task vc fuel' t ok failed w = wait_for_task vc fuel t ok failed w.
Proof.
  intros Hend fuel' Hle. unfold wait_for_task, bind in *.
  rewrite (wait_loop_more_fuel vc t fuel w); [reflexivity| |exact Hle].
  destruct (wait_loop vc fuel t w) as [[[]|e|] w1]; simpl in *; congruence.
Qed.

(** C3.  Take any read [k] that a run of the wait makes (with some budget
    [fuel] the run gets as far as [k]).  If that read raises, it is the last
    effect of the wait: with that budget and with every larger one the wait
    ends there with the same exception, after exactly the reads up to [k],
    and prints nothing.  The outcome is [Raise e]: neither a return nor a
    loop that is still running. *)
Theorem wait_surfaces_transport_error
    (vc : Platform) (t : Task) (fuel : nat) (ok failed : string) (w : World)
    (k : nat) (e : Exn) :
  polls w <= k < polls (snd (wait_for_task vc fuel t ok failed w)) ->
  task_info vc t k = inl e ->
  forall fuel', fuel <= fuel' ->
  wait_for_task vc fuel' t ok failed w = (Raise e, advance t (S k - polls w) w).
Proof.
  intros Hk He fuel' Hle.
  pose proof (wait_stops_at_raising_read vc t fuel ok failed w k e Hk He) as Hrun.
  rewrite (wait_for_task_more_fuel vc t fuel ok failed w); [exact Hrun| |exact Hle].
  rewrite Hrun. discriminate.
Qed.

Lemma wait_surfaces_transport_error_witness :
  wait_for_task drops_at_third 9 0 "created" "failed: " world0
  = (Raise (Fault "connection reset"), advance 0 (S 2 - polls world0) world0).
Proof.
  apply (wait_surfaces_transport_error drops_at_third 0 3 "created" "failed: "
           world0 2 (Fault "connection reset")).
  - simpl. lia.
  - reflexivity.
  - lia.
Defined.

(** The read that raises is reached: after [n] pending reads, a budget of
    more than [n] turns is enough. *)
Lemma wait_reaches_raising_read
    (vc : Platform) (t : Task) (n fuel : nat) (ok failed : string) (w : World)
    (e : Exn) :
  (forall k, k < n -> Pending vc t (polls w + k)) ->
  task_info vc t (polls w + n) = inl e ->
  n < fuel ->
  wait_for_task vc fuel t ok failed w = (Raise e, advance t (S n) w).
Proof.
  intros Hp He Hfuel. unfold wait_for_task, bind.
  replace fuel with (n + S (fuel - S n)) by lia.
  rewrite (wait_loop_pending vc t n _ w Hp).
  rewrite (wait_loop_raises vc t _ (advance t n w) e).
  - rewrite advance_advance. now replace (n + 1) with (S n) by lia.
  - simpl. now rewrite Nat.add_comm.
Qed.

(** C4 (as amended).  The wait has no maximum duration.  While the reads
    show the task pending it reads again: for a task that stays pending, the
    loop is still running after any number [fuel] of reads, having returned
    nothing and printed nothing. *)
Theorem wait_never_gives_up
    (vc : Platform) (t : Task) (fuel : nat) (ok failed : string) (w : World) :
  (forall k, Pending vc t (polls w + k)) ->
  wait_for_task vc fuel t ok failed w = (Looping, advance t fuel w).
Proof.
  intros Hp. unfold wait_for_task, bind.
  replace fuel with (fuel + 0) at 1 by lia.
  rewrite (wait_loop_pending vc t fuel 0 w) by (intros k _; apply Hp).
  reflexivity.
Qed.

Lemma wait_never_gives_up_witness :
  wait_for_task never_done 40 0 "created" "failed: " world0
  = (Looping, advance 0 40 world0).
Proof.
  apply (wait_never_gives_up never_done 0 40 "created" "failed: " world0).
  intros k. exists (info_of State.running). split; reflexivity.
Defined.

(** C4 (as stated) fails.  The task of [never_done] shows no terminal state
    within 25 reads; the wait has no duration to configure, and at the end of
    those 25 reads it has neither returned a value nor raised a timeout: it
    is still in its loop, and a 26th read follows. *)
Lemma wait_has_no_timeout :
  wait_for_task never_done 25 0 "created" "failed: " world0
  = (Looping, advance 0 25 world0) /\
  polls (snd (wait_for_task never_done 26 0 "created" "failed: " world0)) = 26.
Proof. split; reflexivity. Qed.

(** C5 (as amended).  The wait never suspends the caller.  Whatever the
    platform answers, what a run adds to the trace is a row of consecutive
    reads of the task followed by at most one printed line: no sleep, and
    nothing at all between one read and the next. *)
Theorem wait_is_a_busy_loop
    (vc : Platform) (t : Task) (fuel : nat) (ok failed : string) (w : World) :
  exists n lines,
    trace (snd (wait_for_task vc fuel t ok failed w))
    = (trace w ++ repeat (EvRead t) n ++ map EvPrint lines)%list /\
    polls (snd (wait_for_task vc fuel t ok failed w)) = polls w + n /\
    length lines <= 1.
Proof.
  unfold wait_for_task, bind.
  destruct (wait_loop_run vc t fuel w) as (n1 & Hw1 & _).
  destruct (wait_loop vc fuel t w) as [r1 w1]. simpl in Hw1. subst w1.
  destruct r1 as [[]|e1|]; simpl.
  - destruct (report_run vc t ok failed (advance t n1 w)) as (n2 & lines & Hw2 & Hl & _).
    rewrite Hw2. exists (n1 + n2), lines. simpl.
    split; [|split; [lia|exact Hl]].
    now rewrite repeat_app, <- !app_assoc.
  - exists n1, []. simpl. split; [|split; lia]. now rewrite app_nil_r.
  - exists n1, []. simpl. split; [|split; lia]. now rewrite app_nil_r.
Qed.

(** C5 (as stated) fails.  On the spec's own example (two pending reads, then
    success) the wait makes four reads back to back and then prints: no
    sleep stands between any two of them. *)
Lemma wait_polls_back_to_back :
  trace (snd (wait_for_task done_after_two 5 0 "created" "failed: " world0))
  = [EvRead 0; EvRead 0; EvRead 0; EvRead 0; EvPrint "created"] /\
  sleeps_between_reads true
    (trace (snd (wait_for_task done_after_two 5 0 "created" "failed: " world0)))
  = false.
Proof. split; reflexivity. Qed.

(** ** Operations that find nothing to do *)

(** C8.  When [vm_exists] answers [True] for the name, [create_vm] returns
    [None] after one printed line: no call is submitted, no task is read, and
    the inventory is the one it started with. *)
Theorem create_vm_skips_existing
    (vc : Platform) (fuel : nat) (name : string) (w : World) :
  vm_exists name w = (Ret true, w) ->
  exists w',
    create_vm vc fuel name w = (Ret VNone, w') /\
    submitted (trace w') = submitted (trace w) /\
    content w' = content w /\
    polls w' = polls w /\
    trace w' = (trace w ++ [EvPrint ("⚠️ VM '" ++ name
                                     ++ "' already exists. Skipping creation.")%string])%list.
Proof.
  intros Hex.
  exists (log (EvPrint ("⚠️ VM '" ++ name ++ "' already exists. Skipping creation.")) w).
  split.
  - unfold create_vm, try_except, bind at 1. now rewrite Hex.
  - simpl. rewrite submitted_app. simpl. rewrite app_nil_r. auto.
Qed.

Lemma create_vm_skips_existing_witness :
  exists w',
    create_vm (refusing IndexError) 3 "Shital_TestVM" (world_of [vm_stopped])
    = (Ret VNone, w') /\
    submitted (trace w') = submitted (trace (world_of [vm_stopped])) /\
    content w' = content (world_of [vm_stopped]) /\
    polls w' = polls (world_of [vm_stopped]) /\
    trace w' = (trace (world_of [vm_stopped])
                ++ [EvPrint ("⚠️ VM '" ++ "Shital_TestVM"
                             ++ "' already exists. Skipping creation.")%string])%list.
Proof.
  apply (create_vm_skips_existing (refusing IndexError) 3 "Shital_TestVM"
           (world_of [vm_stopped])).
  reflexivity.
Defined.

(** C10.  When the VM that [control_vm_power] finds under the name is
    already in the state the action asks for (powered on for [POWER_ON],
    powered off for [POWER_OFF]), the function prints one line and returns:
    neither [PowerOn] nor [PowerOff] nor any other call is submitted, and the
    inventory, power state included, is untouched. *)
Theorem control_vm_power_skips_redundant_call
    (vc : Platform) (name : string) (action : PowerAction)
    (vm : VirtualMachine) (w : World) :
  find (fun v => vm_name v =? name) (vm_view (content w)) = Some vm ->
  rest_state action = Some (powerState vm) ->
  exists line,
    control_vm_power vc name action w = (Ret VNone, log (EvPrint line) w) /\
    submitted (trace (log (EvPrint line) w)) = submitted (trace w) /\
    content (log (EvPrint line) w) = content w.
Proof.
  intros Hfind Hrest.
  unfold control_vm_power, bind at 1, RetrieveContent. rewrite Hfind.
  destruct action; simpl in Hrest; try discriminate Hrest;
    injection Hrest as Hrest; rewrite <- Hrest; simpl;
    unfold try_except, bind, print, ret; simpl;
    eexists; (split; [reflexivity|]); simpl;
    rewrite submitted_app; simpl; rewrite app_nil_r; auto.
Qed.

Lemma control_vm_power_skips_redundant_call_witness :
  (exists line,
     control_vm_power (refusing IndexError) "Shital_TestVM" POWER_ON
       (world_of [vm_running])
     = (Ret VNone, log (EvPrint line) (world_of [vm_running])) /\
     submitted (trace (log (EvPrint line) (world_of [vm_running])))
     = submitted (trace (world_of [vm_running])) /\
     content (log (EvPrint line) (world_of [vm_running]))
     = content (world_of [vm_running])) /\
  (exists line,
     control_vm_power (refusing IndexError) "Shital_TestVM" POWER_OFF
       (world_of [vm_stopped])
     = (Ret VNone, log (EvPrint line) (world_of [vm_stopped])) /\
     submitted (trace (log (EvPrint line) (world_of [vm_stopped])))
     = submitted (trace (world_of [vm_stopped])) /\
     content (log (EvPrint line) (world_of [vm_stopped]))
     = content (world_of [vm_stopped])).
Proof.
  split.
  - apply (control_vm_power_skips_redundant_call (refusing IndexError)
             "Shital_TestVM" POWER_ON vm_running (world_of [vm_running]));
      reflexivity.
  - apply (control_vm_power_skips_redundant_call (refusing IndexError)
             "Shital_TestVM" POWER_OFF vm_stopped (world_of [vm_stopped]));
      reflexivity.
Defined.

(** ** What the caller gets back *)

(** [control_vm_power] has one return value. *)
Lemma control_vm_power_returns_None
    (vc : Platform) (name : string) (action : PowerAction) (w : World) :
  fst (control_vm_power vc name action w) = Ret VNone.
Proof.
  unfold control_vm_power, bind at 1, RetrieveContent.
  destruct (find _ _) as [vm|]; [|reflexivity].
  unfold try_except, bind, print, ret, call.
  destruct action; simpl;
    destruct (powerState vm); simpl;
    repeat match goal with
           | |- context [submit ?p ?c ?x] => destruct (submit p c x); simpl
           end;
    reflexivity.
Qed.

(** [take_snapshot] has one return value too, when its wait ends. *)
Lemma take_snapshot_returns_None
    (vc : Platform) (fuel : nat) (name snapshot_name description : string)
    (w : World) :
  fst (take_snapshot vc fuel name snapshot_name description w) = Ret VNone \/
  fst (take_snapshot vc fuel name snapshot_name description w) = Looping.
Proof.
  assert (H : exists r w',
             take_snapshot vc fuel name snapshot_name description w = (r, w') /\
             (r = Ret VNone \/ r = Looping)).
  { unfold take_snapshot, bind at 1, RetrieveContent.
    destruct (find _ _) as [vm|]; [|do 2 eexists; split; [reflexivity|auto]].
    unfold try_except, bind at 1, print at 1. unfold bind at 1, call.
    destruct (submit vc _ _) as [e|t]; [do 2 eexists; split; [reflexivity|auto]|].
    unfold bind at 1.
    match goal with
    | |- context [wait_for_task ?v ?f ?t0 ?a ?b ?x] =>
        destruct (wait_for_task v f t0 a b x) as [[[]|e|] w1]
    end; do 2 eexists; (split; [reflexivity|auto]). }
  destruct H as (r & w' & H & Hr). rewrite H. exact Hr.
Qed.

Lemma control_vm_power_not_found
    (vc : Platform) (name : string) (action : PowerAction) (w : World) :
  find (fun v => vm_name v =? name) (vm_view (content w)) = None ->
  control_vm_power vc name action w
  = (Ret VNone, log (EvPrint (not_found_line name)) w).
Proof.
  intros Hfind. unfold control_vm_power, bind at 1, RetrieveContent.
  now rewrite Hfind.
Qed.

Lemma take_snapshot_not_found
    (vc : Platform) (fuel : nat) (name snapshot_name description : string)
    (w : World) :
  find (fun v => vm_name v =? name) (vm_view (content w)) = None ->
  take_snapshot vc fuel name snapshot_name description w
  = (Ret VNone, log (EvPrint (not_found_line name)) w).
Proof.
  intros Hfind. unfold take_snapshot, bind at 1, RetrieveContent.
  now rewrite Hfind.
Qed.

(** [PowerOn] is refused with [e]: the handler of line 216 prints it. *)
Lemma control_vm_power_on_refused
    (vc : Platform) (name : string) (vm : VirtualMachine) (e : Exn) (w : World) :
  find (fun v => vm_name v =? name) (vm_view (content w)) = Some vm ->
  powerState vm = poweredOff ->
  submit vc (PowerOn vm) (content w) = inl e ->
  exists w',
    control_vm_power vc name POWER_ON w = (Ret VNone, w') /\
    trace w' = (trace w ++
                [EvPrint ("🔌 Powering ON VM: " ++ name)%string;
                 EvCall (PowerOn vm);
                 EvPrint ("❌ Failed to power_on VM '" ++ name ++ "': "
                          ++ str_exn e)%string])%list.
Proof.
  intros Hfind Hoff Hsub.
  unfold control_vm_power, bind at 1, RetrieveContent. rewrite Hfind.
  rewrite Hoff. unfold try_except, bind, print, call, log; simpl.
  rewrite Hsub. simpl. eexists. split; [reflexivity|].
  simpl. now rewrite <- !app_assoc.
Qed.

(** The snapshot task ends in [error]: line 240 prints the reason. *)
Lemma take_snapshot_task_fails
    (vc : Platform) (fuel n : nat) (name snapshot_name description reason : string)
    (vm : VirtualMachine) (t : Task) (w : World) :
  find (fun v => vm_name v =? name) (vm_view (content w)) = Some vm ->
  submit vc (CreateSnapshot_Task vm snapshot_name description false false)
         (content w) = inr t ->
  (forall k, k < n -> Pending vc t (polls w + k)) ->
  (forall k, n <= k -> Failed vc t (polls w + k) reason) ->
  n < fuel ->
  exists w',
    take_snapshot vc fuel name snapshot_name description w = (Ret VNone, w') /\
    printed (trace w')
    = (printed (trace w) ++
       [("📸 Taking snapshot of VM: " ++ name)%string;
        ("❌ Snapshot creation failed: " ++ reason)%string])%list.
Proof.
  intros Hfind Hsub Hp Hf Hfuel.
  unfold take_snapshot, bind at 1, RetrieveContent. rewrite Hfind.
  unfold try_except, bind at 1, print at 1. unfold bind at 1, call.
  cbn [content log]. rewrite Hsub. unfold bind at 1.
  match goal with
  | |- context [wait_for_task vc fuel t ?a ?b ?x] =>
      rewrite (wait_failure_run vc t n fuel a b reason x Hp Hf Hfuel)
  end.
  eexists. split; [reflexivity|].
  simpl. rewrite !printed_app, printed_reads. simpl.
  now rewrite <- !app_assoc.
Qed.

(** C7.  Take a world in which no VM has the name and a world in which one
    has it but the operation fails ([PowerOn] is refused with [e]; the
    snapshot task ends in [Failed reason]).  [control_vm_power] and
    [take_snapshot] hand the same value, [None], back in both worlds, and
    neither raises; the runs differ in the lines they print, and the line of
    the first world is not the last line of the second. *)
Theorem not_found_and_failure_return_alike
    (vc : Platform) (fuel n : nat) (name snapshot_name description reason : string)
    (vm : VirtualMachine) (e : Exn) (t : Task) (w_miss w_fail : World) :
  find (fun v => vm_name v =? name) (vm_view (content w_miss)) = None ->
  find (fun v => vm_name v =? name) (vm_view (content w_fail)) = Some vm ->
  powerState vm = poweredOff ->
  submit vc (PowerOn vm) (content w_fail) = inl e ->
  submit vc (CreateSnapshot_Task vm snapshot_name description false false)
         (content w_fail) = inr t ->
  (forall k, k < n -> Pending vc t (polls w_fail + k)) ->
  (forall k, n <= k -> Failed vc t (polls w_fail + k) reason) ->
  n < fuel ->
  let power_miss := control_vm_power vc name POWER_ON w_miss in
  let power_fail := control_vm_power vc name POWER_ON w_fail in
  let snap_miss := take_snapshot vc fuel name snapshot_name description w_miss in
  let snap_fail := take_snapshot vc fuel name snapshot_name description w_fail in
  (fst power_miss = Ret VNone /\ fst power_fail = Ret VNone) /\
  (fst snap_miss = Ret VNone /\ fst snap_fail = Ret VNone) /\
  printed (trace (snd power_miss))
  = (printed (trace w_miss) ++ [not_found_line name])%list /\
  printed (trace (snd power_fail))
  = (printed (trace w_fail) ++
     [("🔌 Powering ON VM: " ++ name)%string;
      ("❌ Failed to power_on VM '" ++ name ++ "': " ++ str_exn e)%string])%list /\
  printed (trace (snd snap_miss))
  = (printed (trace w_miss) ++ [not_found_line name])%list /\
  printed (trace (snd snap_fail))
  = (printed (trace w_fail) ++
     [("📸 Taking snapshot of VM: " ++ name)%string;
      ("❌ Snapshot creation failed: " ++ reason)%string])%list /\
  not_found_line name
  <> ("❌ Failed to power_on VM '" ++ name ++ "': " ++ str_exn e)%string /\
  not_found_line name <> ("❌ Snapshot creation failed: " ++ reason)%string.
Proof.
  intros Hmiss Hfind Hoff Hon Hsnap Hp Hf Hfuel.
  cbv zeta.
  rewrite (control_vm_power_not_found vc name POWER_ON w_miss Hmiss).
  rewrite (take_snapshot_not_found vc fuel name snapshot_name description w_miss Hmiss).
  destruct (control_vm_power_on_refused vc name vm e w_fail Hfind Hoff Hon)
    as (w1 & Hrun1 & Htr1).
  destruct (take_snapshot_task_fails vc fuel n name snapshot_name description
              reason vm t w_fail Hfind Hsnap Hp Hf Hfuel)
    as (w2 & Hrun2 & Htr2).
  rewrite Hrun1, Hrun2. cbn [fst snd].
  repeat split; auto.
  - simpl. now rewrite printed_app.
  - rewrite Htr1, printed_app. reflexivity.
  - simpl. now rewrite printed_app.
  - unfold not_found_line. simpl. intros H. discriminate H.
  - unfold not_found_line. simpl. intros H. discriminate H.
Qed.

Lemma not_found_and_failure_return_alike_witness :
  let vc := power_refused in
  let name := "Shital_TestVM" in
  let w_miss := world_of [] in
  let w_fail := world_of [vm_stopped] in
  let power_miss := control_vm_power vc name POWER_ON w_miss in
  let power_fail := control_vm_power vc name POWER_ON w_fail in
  let snap_miss := take_snapshot vc 3 name "InitialSnap" "made by script" w_miss in
  let snap_fail := take_snapshot vc 3 name "InitialSnap" "made by script" w_fail in
  (fst power_miss = Ret VNone /\ fst power_fail = Ret VNone) /\
  (fst snap_miss = Ret VNone /\ fst snap_fail = Ret VNone) /\
  printed (trace (snd power_miss))
  = (printed (trace w_miss) ++ [not_found_line name])%list /\
  printed (trace (snd power_fail))
  = (printed (trace w_fail) ++
     [("🔌 Powering ON VM: " ++ name)%string;
      ("❌ Failed to power_on VM '" ++ name ++ "': "
       ++ str_exn (Fault "host is in maintenance mode"))%string])%list /\
  printed (trace (snd snap_miss))
  = (printed (trace w_miss) ++ [not_found_line name])%list /\
  printed (trace (snd snap_fail))
  = (printed (trace w_fail) ++
     [("📸 Taking snapshot of VM: " ++ name)%string;
      ("❌ Snapshot creation failed: " ++ "disk is full")%string])%list /\
  not_found_line name
  <> ("❌ Failed to power_on VM '" ++ name ++ "': "
      ++ str_exn (Fault "host is in maintenance mode"))%string /\
  not_found_line name <> ("❌ Snapshot creation failed: " ++ "disk is full")%string.
Proof.
  apply (not_found_and_failure_return_alike power_refused 3 0 "Shital_TestVM"
           "InitialSnap" "made by script" "disk is full" vm_stopped
           (Fault "host is in maintenance mode") 7
           (world_of []) (world_of [vm_stopped])).
  - reflexivity.
  - reflexivity.
  - reflexivity.
  - reflexivity.
  - reflexivity.
  - intros k Hk. lia.
  - intros k Hk. reflexivity.
  - lia.
Defined.

(** ** The event monitor *)


(** An event of the platform does not pass the test of line 499. *)
Lemma sdk_event_is_passed_over (ev : VcEvent) :
  sdk_event ev = true -> is_vm_power_event ev = false.
Proof.
  unfold sdk_event, is_vm_power_event.
  destruct (ev_vm ev) as [[name|e]|]; [reflexivity|discriminate|reflexivity].
Qed.

(** The loop passes over an answer of such events without an effect. *)
Lemma events_loop_passes_over (events : list VcEvent) :
  forall (count max_events : Z) (w : World),
  forallb sdk_event events = true ->
  events_loop events count max_events w = (Ret count, w).
Proof.
  induction events as [|ev rest IH]; intros count max_events w Hsdk.
  - reflexivity.
  - simpl in Hsdk. apply andb_prop in Hsdk. destruct Hsdk as [Hev Hrest].
    simpl. rewrite (sdk_event_is_passed_over ev Hev). now apply IH.
Qed.



(** The separator is ["-" * 40]. *)
Example separator_has_40_dashes :
  String.length "----------------------------------------" = 40.
Proof. reflexivity. Qed.

(** ** The wait inside its call sites *)

(** How [create_vm] hands the outcome of its wait to the caller: the task
    when the wait returned (whether it printed success or failure), [None]
    and an error line when the wait raised, and nothing while it loops. *)
Lemma create_vm_wait_outcome
    (vc : Platform) (fuel : nat) (name : string) (w : World)
    (dc : Datacenter) (dcs : list Datacenter)
    (cl : ComputeResource) (cls : list ComputeResource)
    (ds : Datastore) (dss : list Datastore) (t : Task) :
  vm_exists name w = (Ret false, w) ->
  rootFolder (content w) = dc :: dcs ->
  hostFolder dc = cl :: cls ->
  datastore_view (content w) = ds :: dss ->
  let config :=
    {| cfg_name := name; memoryMB := 128; numCPUs := 1;
       guestId := "otherGuest"; vmPathName := "[" ++ ds_name ds ++ "]" |} in
  let c := CreateVM_Task (vmFolder dc) config (resourcePool cl) in
  submit vc c (content w) = inr t ->
  let w1 :=
    {| content := effect vc c (content w);
       polls := polls w;
       trace := trace w ++ [EvPrint ("✅ Found datastore: " ++ ds_name ds);
                            EvPrint ("Creating VM: " ++ name);
                            EvCall c] |} in
  create_vm vc fuel name w
  = match wait_for_task vc fuel t
            ("✅ VM '" ++ name ++ "' created successfully.")
            "❌ VM creation failed: " w1 with
    | (Ret _, w2) => (Ret (VTask t), w2)
    | (Raise e, w2) =>
        (Ret VNone, log (EvPrint ("❌ Error during VM creation: " ++ str_exn e)) w2)
    | (Looping, w2) => (Looping, w2)
    end.
Proof.
  intros Hex Hdc Hcl Hds config c Hsub w1.
  unfold create_vm, try_except, bind at 1. rewrite Hex.
  unfold bind at 1, RetrieveContent. rewrite Hdc.
  unfold bind at 1, index0 at 1, ret at 1. rewrite Hcl.
  unfold bind at 1, index0 at 1, ret at 1.
  unfold bind at 1, get_first_datastore, bind at 1, RetrieveContent. rewrite Hds.
  unfold bind at 1, print at 1, ret at 1.
  unfold bind at 1, attr_of, ret at 1.
  unfold bind at 1, print at 1.
  unfold bind at 1, call. cbn [content log trace polls].
  fold config. fold c. rewrite Hsub.
  unfold bind at 1.
  replace {| content := effect vc c (content w); polls := polls w;
             trace := ((trace w ++ [EvPrint ("✅ Found datastore: " ++ ds_name ds)])
                       ++ [EvPrint ("Creating VM: " ++ name)]) ++ [EvCall c] |}
    with w1 by (unfold w1; now rewrite <- !app_assoc).
  destruct (wait_for_task vc fuel t _ _ w1) as [[[]|e|] w2]; reflexivity.
Qed.

(** ** Worked runs *)

(** The spec's first example, at [create_vm]: pending, pending, succeeded.
    The task is read four times and handed back. *)
Example create_vm_pending_pending_succeeded :
  fst (create_vm done_after_two 9 "Shital_TestVM" lab) = Ret (VTask 0) /\
  polls (snd (create_vm done_after_two 9 "Shital_TestVM" lab)) = 4 /\
  printed (trace (snd (create_vm done_after_two 9 "Shital_TestVM" lab)))
  = ["✅ Found datastore: LocalDS_0";
     "Creating VM: Shital_TestVM";
     "✅ VM 'Shital_TestVM' created successfully."].
Proof. repeat split. Qed.

(** The spec's second example, at [clone_vm_from_template]: pending, then
    failed for lack of resources. *)
Example clone_pending_failed :
  fst (clone_vm_from_template fails_after_one 9 "TemplateVM" "Shital_ClonedVM"
         None None None true lab) = Ret VNone /\
  printed (trace (snd (clone_vm_from_template fails_after_one 9 "TemplateVM"
                         "Shital_ClonedVM" None None None true lab)))
  = ["✅ Found datastore: LocalDS_0";
     "🛠️ Cloning VM 'Shital_ClonedVM' from template 'TemplateVM'...";
     "❌ Clone failed: insufficient resources"].
Proof. split; reflexivity. Qed.

(** A connection that drops during the wait: [create_vm] catches the
    exception and prints it, [clone_vm_from_template] has no handler and
    lets it reach its caller. *)
Example transport_error_at_call_sites :
  fst (create_vm drops_at_third 9 "Shital_TestVM" lab) = Ret VNone /\
  printed (trace (snd (create_vm drops_at_third 9 "Shital_TestVM" lab)))
  = ["✅ Found datastore: LocalDS_0";
     "Creating VM: Shital_TestVM";
     "❌ Error during VM creation: connection reset"] /\
  fst (clone_vm_from_template drops_at_third 9 "TemplateVM" "Shital_ClonedVM"
         None None None true lab) = Raise (Fault "connection reset") /\
  polls (snd (clone_vm_from_template drops_at_third 9 "TemplateVM"
                "Shital_ClonedVM" None None None true lab)) = 3.
Proof. repeat split. Qed.

(** [revert_to_snapshot] polls the same way. *)
Example revert_polls_back_to_back :
  trace (snd (revert_to_snapshot done_after_two 9 "TemplateVM" "InitialSnap" lab))
  = [EvPrint "⏪ Reverting VM 'TemplateVM' to snapshot 'InitialSnap'";
     EvCall (RevertToSnapshot_Task 11);
     EvRead 0; EvRead 0; EvRead 0; EvRead 0;
     EvPrint "✅ Reverted to snapshot 'InitialSnap'"].
Proof. reflexivity. Qed.

(** With an empty inventory [create_vm] fails on [childEntity[0]], which its
    handler prints. *)
Example create_vm_without_datacenter :
  create_vm never_done 9 "Shital_TestVM" world0
  = (Ret VNone,
     log (EvPrint "❌ Error during VM creation: list index out of range") world0).
Proof. reflexivity. Qed.

(** * Further properties of main.py *)

(** ** Vocabulary of the further statements *)

(** The call [create_vm] builds from the first datacenter, its first
    cluster and the first datastore. *)
Definition creation_call (name : string) (dc : Datacenter) (cl : ComputeResource)
    (ds : Datastore) : Call :=
  CreateVM_Task (vmFolder dc)
    {| cfg_name := name; memoryMB := 128; numCPUs := 1;
       guestId := "otherGuest"; vmPathName := "[" ++ ds_name ds ++ "]" |}
    (resourcePool cl).

(** The world in which the wait of [create_vm] starts. *)
Definition after_creation_call (vc : Platform) (name : string) (dc : Datacenter)
    (cl : ComputeResource) (ds : Datastore) (w : World) : World :=
  {| content := effect vc (creation_call name dc cl ds) (content w);
     polls := polls w;
     trace := trace w ++ [EvPrint ("✅ Found datastore: " ++ ds_name ds);
                          EvPrint ("Creating VM: " ++ name);
                          EvCall (creation_call name dc cl ds)] |}.

(** The world after some lines were printed and nothing else happened. *)
Definition say (lines : list string) (w : World) : World :=
  {| content := content w;
     polls := polls w;
     trace := trace w ++ map EvPrint lines |}.

(** The look-ups of [clone_vm_from_template], lines 354-396, as functions of
    the inventory. *)
Definition chosen_datacenter (datacenter_name : option string) (c : Content)
  : option Datacenter :=
  find (fun dc => negb (given datacenter_name) || is_name datacenter_name (dc_name dc))
       (rootFolder c).

Definition chosen_template (template_name : string) (dc : Datacenter)
  : option VirtualMachine :=
  match find (is_template template_name) (vmFolder dc) with
  | Some (EntityVM vm) => Some vm
  | _ => None
  end.

Definition chosen_datastore (datastore_name : option string) (dc : Datacenter)
    (c : Content) : option Datastore :=
  if given datastore_name then
    find (fun ds => is_name datastore_name (ds_name ds)) (dc_datastore dc)
  else hd_error (datastore_view c).

(** What the datastore look-up prints: nothing for a named datastore, the
    line of [get_first_datastore] otherwise. *)
Definition datastore_lines (datastore_name : option string) (c : Content)
  : list string :=
  if given datastore_name then []
  else match datastore_view c with
       | ds :: _ => [("✅ Found datastore: " ++ ds_name ds)%string]
       | [] => ["❌ No datastore found."]
       end.

Definition chosen_pool (resource_pool_name : option string) (dc : Datacenter)
  : Exn + option ResourcePool :=
  if given resource_pool_name then
    inr (find_resource_pool (hostFolder dc) resource_pool_name)
  else match hostFolder dc with
       | cluster :: _ => inr (Some (resourcePool cluster))
       | [] => inl IndexError
       end.

(** The call [clone_vm_from_template] builds from what it has chosen. *)
Definition clone_call (new_vm_name : string) (power_on : bool) (dc : Datacenter)
    (template_vm : VirtualMachine) (ds : Datastore) (pool : option ResourcePool)
  : Call :=
  Clone template_vm (vmFolder dc) new_vm_name
    {| location_datastore := Some ds; location_pool := pool; powerOn := power_on |}.

(** ** Further inventories for the examples *)

(** An inventory whose only datacenter holds a folder named like the
    template. *)
Definition world_with_folder_only : World :=
  {| content := {| rootFolder :=
                     [{| dc_name := "DC0";
                         vmFolder := [EntityFolder "TemplateVM"];
                         hostFolder := [];
                         dc_datastore := [] |}];
                   vm_view := [];
                   datastore_view := [];
                   recent_events := inr [] |};
     polls := 0;
     trace := [] |}.

(** An inventory with a template and a datastore but no cluster. *)
Definition world_without_cluster : World :=
  {| content := {| rootFolder :=
                     [{| dc_name := "DC0";
                         vmFolder := [EntityVM template_vm];
                         hostFolder := [];
                         dc_datastore := [{| ds_name := "LocalDS_0" |}] |}];
                   vm_view := [template_vm];
                   datastore_view := [{| ds_name := "LocalDS_0" |}];
                   recent_events := inr [] |};
     polls := 0;
     trace := [] |}.

(** Two clusters that both have a pool named Production. *)
Definition cluster_east : ComputeResource :=
  {| resourcePool := Pool "Resources" [Pool "Production" [Pool "east" []]] |}.

Definition cluster_west : ComputeResource :=
  {| resourcePool := Pool "Resources" [Pool "Staging" []; Pool "Production" []] |}.

(** ** What traces keep *)

Lemma submitted_reads t n : submitted (repeat (EvRead t) n) = [].
Proof. induction n; simpl; auto. Qed.

Lemma submitted_prints lines : submitted (map EvPrint lines) = [].
Proof. induction lines; simpl; auto. Qed.

Lemma printed_prints lines : printed (map EvPrint lines) = lines.
Proof. induction lines as [|l lines IH]; simpl; [reflexivity|now rewrite IH]. Qed.

(** The calls of a trace that was built by appending. *)
Ltac tidy_calls :=
  simpl; rewrite ?submitted_app, ?submitted_reads, ?submitted_prints; simpl;
  rewrite ?app_nil_r, <- ?app_assoc; simpl; auto.

(** Every run of the wait, as a change of the world: reads of the task, then
    at most one line. *)
Lemma wait_run
    (vc : Platform) (t : Task) (fuel : nat) (ok failed : string) (w : World) :
  exists n lines,
    snd (wait_for_task vc fuel t ok failed w)
    = {| content := content w;
         polls := n + polls w;
         trace := trace w ++ repeat (EvRead t) n ++ map EvPrint lines |} /\
    length lines <= 1.
Proof.
  unfold wait_for_task, bind.
  destruct (wait_loop_run vc t fuel w) as (n1 & Hw1 & _).
  destruct (wait_loop vc fuel t w) as [r1 w1]. simpl in Hw1. subst w1.
  destruct r1 as [[]|e1|]; cbn [snd].
  - destruct (report_run vc t ok failed (advance t n1 w)) as (n2 & lines & Hw2 & Hl & _).
    rewrite Hw2. exists (n1 + n2), lines. split; [|exact Hl].
    unfold advance; simpl. f_equal; [lia|].
    now rewrite repeat_app, <- !app_assoc.
  - exists n1, []. split; [|simpl; lia]. unfold advance. simpl.
    now rewrite app_nil_r.
  - exists n1, []. split; [|simpl; lia]. unfold advance. simpl.
    now rewrite app_nil_r.
Qed.

(** ** More on the wait *)

(** X1.  The wait only reads.  Whatever the platform answers and however long the
    loop runs, a run of the wait leaves the inventory as it was and submits
    no call. *)
Theorem wait_only_reads
    (vc : Platform) (t : Task) (fuel : nat) (ok failed : string) (w : World) :
  content (snd (wait_for_task vc fuel t ok failed w)) = content w /\
  submitted (trace (snd (wait_for_task vc fuel t ok failed w)))
  = submitted (trace w).
Proof.
  destruct (wait_run vc t fuel ok failed w) as (n & lines & Hw & _).
  rewrite Hw. simpl. split; [reflexivity|].
  now rewrite !submitted_app, submitted_reads, submitted_prints, !app_nil_r.
Qed.

(** X2.  A task that ends in [error] without a fault object ([task.info.error] is
    [None]) makes the wait raise [AttributeError] on [.msg]: after the [n]
    pending reads the loop, the [if] and the message each read the task once,
    and nothing is printed. *)
Theorem wait_raises_on_missing_fault
    (vc : Platform) (t : Task) (n fuel : nat) (ok failed : string) (w : World) :
  (forall k, k < n -> Pending vc t (polls w + k)) ->
  (forall k, n <= k ->
     task_info vc t (polls w + k) = inr {| state := State.error; error := None |}) ->
  n < fuel ->
  wait_for_task vc fuel t ok failed w
  = (Raise (AttributeError "msg"), advance t (n + 3) w).
Proof.
  intros Hp Hf Hfuel. unfold wait_for_task, bind.
  replace fuel with (n + S (fuel - S n)) by lia.
  rewrite (wait_loop_pending vc t n _ w Hp).
  rewrite (wait_loop_terminal vc t _ (advance t n w)
             {| state := State.error; error := None |});
    [| simpl; rewrite Nat.add_comm; apply Hf; lia | reflexivity].
  unfold report, bind.
  rewrite (info_returns vc t (advance t 1 (advance t n w))
             {| state := State.error; error := None |}).
  - cbn [State.eqb state].
    rewrite (info_returns vc t (advance t 1 (advance t 1 (advance t n w)))
               {| state := State.error; error := None |}).
    + simpl. rewrite !advance_advance.
      now replace (n + 1 + 1 + 1) with (n + 3) by lia.
    + simpl. replace (S (S (n + polls w))) with (polls w + (n + 2)) by lia.
      apply Hf. lia.
  - simpl. replace (S (n + polls w)) with (polls w + (n + 1)) by lia.
    apply Hf. lia.
Qed.

Lemma wait_raises_on_missing_fault_witness :
  wait_for_task (scripted (fun _ => inr (info_of State.error))) 2 0
    "created" "failed: " world0
  = (Raise (AttributeError "msg"), advance 0 (0 + 3) world0).
Proof.
  apply (wait_raises_on_missing_fault
           (scripted (fun _ => inr (info_of State.error))) 0 0 2
           "created" "failed: " world0).
  - intros k Hk. lia.
  - intros k Hk. reflexivity.
  - lia.
Defined.

(** ** create_vm on every path *)

Lemma vm_exists_run (name : string) (w : World) :
  vm_exists name w
  = (Ret (existsb (fun vm => vm_name vm =? name) (vm_view (content w))), w).
Proof. reflexivity. Qed.

Lemma create_vm_no_datacenter_run
    (vc : Platform) (fuel : nat) (name : string) (w : World) :
  vm_exists name w = (Ret false, w) ->
  rootFolder (content w) = [] ->
  create_vm vc fuel name w
  = (Ret VNone,
     log (EvPrint "❌ Error during VM creation: list index out of range") w).
Proof.
  intros Hex Hdc.
  unfold create_vm, try_except, bind at 1. rewrite Hex.
  unfold bind at 1, RetrieveContent. now rewrite Hdc.
Qed.

Lemma create_vm_no_cluster_run
    (vc : Platform) (fuel : nat) (name : string) (w : World)
    (dc : Datacenter) (dcs : list Datacenter) :
  vm_exists name w = (Ret false, w) ->
  rootFolder (content w) = dc :: dcs ->
  hostFolder dc = [] ->
  create_vm vc fuel name w
  = (Ret VNone,
     log (EvPrint "❌ Error during VM creation: list index out of range") w).
Proof.
  intros Hex Hdc Hcl.
  unfold create_vm, try_except, bind at 1. rewrite Hex.
  unfold bind at 1, RetrieveContent. rewrite Hdc.
  unfold bind at 1, index0 at 1, ret at 1. now rewrite Hcl.
Qed.

Lemma create_vm_no_datastore_run
    (vc : Platform) (fuel : nat) (name : string) (w : World)
    (dc : Datacenter) (dcs : list Datacenter)
    (cl : ComputeResource) (cls : list ComputeResource) :
  vm_exists name w = (Ret false, w) ->
  rootFolder (content w) = dc :: dcs ->
  hostFolder dc = cl :: cls ->
  datastore_view (content w) = [] ->
  create_vm vc fuel name w
  = (Ret VNone,
     log (EvPrint "❌ Error during VM creation: 'NoneType' object has no attribute 'name'")
       (log (EvPrint "❌ No datastore found.") w)).
Proof.
  intros Hex Hdc Hcl Hds.
  unfold create_vm, try_except, bind at 1. rewrite Hex.
  unfold bind at 1, RetrieveContent. rewrite Hdc.
  unfold bind at 1, index0 at 1, ret at 1. rewrite Hcl.
  unfold bind at 1, index0 at 1, ret at 1.
  unfold bind at 1, get_first_datastore, bind at 1, RetrieveContent. now rewrite Hds.
Qed.

Lemma create_vm_refused_run
    (vc : Platform) (fuel : nat) (name : string) (w : World)
    (dc : Datacenter) (dcs : list Datacenter)
    (cl : ComputeResource) (cls : list ComputeResource)
    (ds : Datastore) (dss : list Datastore) (e : Exn) :
  vm_exists name w = (Ret false, w) ->
  rootFolder (content w) = dc :: dcs ->
  hostFolder dc = cl :: cls ->
  datastore_view (content w) = ds :: dss ->
  submit vc (creation_call name dc cl ds) (content w) = inl e ->
  create_vm vc fuel name w
  = (Ret VNone,
     {| content := effect vc (creation_call name dc cl ds) (content w);
        polls := polls w;
        trace := trace w ++ [EvPrint ("✅ Found datastore: " ++ ds_name ds);
                             EvPrint ("Creating VM: " ++ name);
                             EvCall (creation_call name dc cl ds);
                             EvPrint ("❌ Error during VM creation: " ++ str_exn e)] |}).
Proof.
  intros Hex Hdc Hcl Hds Hsub.
  unfold create_vm, try_except, bind at 1. rewrite Hex.
  unfold bind at 1, RetrieveContent. rewrite Hdc.
  unfold bind at 1, index0 at 1, ret at 1. rewrite Hcl.
  unfold bind at 1, index0 at 1, ret at 1.
  unfold bind at 1, get_first_datastore, bind at 1, RetrieveContent. rewrite Hds.
  unfold bind at 1, print at 1, ret at 1.
  unfold bind at 1, attr_of, ret at 1.
  unfold bind at 1, print at 1.
  unfold bind at 1, call. cbn [content log trace polls].
  unfold creation_call in Hsub. rewrite Hsub.
  unfold bind, print, ret, log. cbn [content trace polls].
  now rewrite <- !app_assoc.
Qed.

Lemma create_vm_existing_run
    (vc : Platform) (fuel : nat) (name : string) (w : World) :
  vm_exists name w = (Ret true, w) ->
  create_vm vc fuel name w
  = (Ret VNone,
     log (EvPrint ("⚠️ VM '" ++ name ++ "' already exists. Skipping creation.")) w).
Proof.
  intros Hex. unfold create_vm, try_except, bind at 1. now rewrite Hex.
Qed.

(** X3.  Without a datacenter, without a cluster in the first datacenter, or
    without a datastore, [create_vm] gives up before it submits anything: the
    [IndexError] or [AttributeError] is caught, printed as an error line, and
    [None] is returned.  The run only prints. *)
Theorem create_vm_gives_up_on_incomplete_inventory
    (vc : Platform) (fuel : nat) (name : string) (w : World) :
  vm_exists name w = (Ret false, w) ->
  rootFolder (content w) = []
  \/ (exists dc dcs, rootFolder (content w) = dc :: dcs /\ hostFolder dc = [])
  \/ datastore_view (content w) = [] ->
  exists lines reason,
    create_vm vc fuel name w
    = (Ret VNone,
       {| content := content w;
          polls := polls w;
          trace := trace w
                   ++ map EvPrint (lines ++ [("❌ Error during VM creation: "
                                              ++ reason)%string]) |}) /\
    submitted (trace (snd (create_vm vc fuel name w))) = submitted (trace w).
Proof.
  intros Hex Hmissing.
  assert (Hrun : exists lines reason,
             create_vm vc fuel name w
             = (Ret VNone,
                {| content := content w; polls := polls w;
                   trace := trace w
                            ++ map EvPrint (lines ++ [("❌ Error during VM creation: "
                                                       ++ reason)%string]) |})).
  { destruct (rootFolder (content w)) as [|dc dcs] eqn:Hdc.
    - exists [], "list index out of range".
      now rewrite (create_vm_no_datacenter_run vc fuel name w Hex Hdc).
    - destruct (hostFolder dc) as [|cl cls] eqn:Hcl.
      + exists [], "list index out of range".
        now rewrite (create_vm_no_cluster_run vc fuel name w dc dcs Hex Hdc Hcl).
      + destruct Hmissing as [H|[(dc' & dcs' & H & Hcl')|Hds]].
        * discriminate H.
        * injection H as <- <-. rewrite Hcl in Hcl'. discriminate Hcl'.
        * exists ["❌ No datastore found."],
            "'NoneType' object has no attribute 'name'".
          rewrite (create_vm_no_datastore_run vc fuel name w dc dcs cl cls
                     Hex Hdc Hcl Hds).
          unfold log; simpl. now rewrite <- app_assoc. }
  destruct Hrun as (lines & reason & Hrun).
  exists lines, reason. split; [exact Hrun|].
  rewrite Hrun. simpl. now rewrite submitted_app, submitted_prints, app_nil_r.
Qed.

Lemma create_vm_gives_up_on_incomplete_inventory_witness :
  exists lines reason,
    create_vm never_done 5 "Shital_TestVM" world0
    = (Ret VNone,
       {| content := content world0;
          polls := polls world0;
          trace := trace world0
                   ++ map EvPrint (lines ++ [("❌ Error during VM creation: "
                                              ++ reason)%string]) |}) /\
    submitted (trace (snd (create_vm never_done 5 "Shital_TestVM" world0)))
    = submitted (trace world0).
Proof.
  apply (create_vm_gives_up_on_incomplete_inventory never_done 5 "Shital_TestVM" world0).
  - reflexivity.
  - left. reflexivity.
Defined.

(** X4.  When the platform refuses the creation call with [e], the call has been
    submitted all the same; [create_vm] prints [e] and returns [None], and it
    never reads a task. *)
Theorem create_vm_refused_returns_None
    (vc : Platform) (fuel : nat) (name : string) (w : World)
    (dc : Datacenter) (dcs : list Datacenter)
    (cl : ComputeResource) (cls : list ComputeResource)
    (ds : Datastore) (dss : list Datastore) (e : Exn) :
  vm_exists name w = (Ret false, w) ->
  rootFolder (content w) = dc :: dcs ->
  hostFolder dc = cl :: cls ->
  datastore_view (content w) = ds :: dss ->
  submit vc (creation_call name dc cl ds) (content w) = inl e ->
  exists w',
    create_vm vc fuel name w = (Ret VNone, w') /\
    submitted (trace w') = (submitted (trace w) ++ [creation_call name dc cl ds])%list /\
    printed (trace w')
    = (printed (trace w)
       ++ [("✅ Found datastore: " ++ ds_name ds)%string;
           ("Creating VM: " ++ name)%string;
           ("❌ Error during VM creation: " ++ str_exn e)%string])%list /\
    polls w' = polls w.
Proof.
  intros Hex Hdc Hcl Hds Hsub.
  eexists. split.
  - exact (create_vm_refused_run vc fuel name w dc dcs cl cls ds dss e
             Hex Hdc Hcl Hds Hsub).
  - simpl. rewrite submitted_app, printed_app. simpl. auto.
Qed.

Lemma create_vm_refused_returns_None_witness :
  exists w',
    create_vm (refusing (Fault "permission denied")) 5 "Shital_TestVM" lab
    = (Ret VNone, w') /\
    submitted (trace w')
    = (submitted (trace lab)
       ++ [creation_call "Shital_TestVM" dc0 {| resourcePool := Pool "Resources" [] |}
             {| ds_name := "LocalDS_0" |}])%list /\
    printed (trace w')
    = (printed (trace lab)
       ++ [("✅ Found datastore: " ++ "LocalDS_0")%string;
           ("Creating VM: " ++ "Shital_TestVM")%string;
           ("❌ Error during VM creation: "
            ++ str_exn (Fault "permission denied"))%string])%list /\
    polls w' = polls lab.
Proof.
  apply (create_vm_refused_returns_None (refusing (Fault "permission denied")) 5
           "Shital_TestVM" lab dc0 [] {| resourcePool := Pool "Resources" [] |} []
           {| ds_name := "LocalDS_0" |} [] (Fault "permission denied"));
    reflexivity.
Defined.

(** X5.  A creation that the platform reports as failed still hands the task
    back: after [n] pending reads and [Failed reason], [create_vm] prints the
    failure line with the reason and returns the task, exactly as it does
    for a creation that succeeded. *)
Theorem create_vm_returns_task_of_failed_creation
    (vc : Platform) (fuel n : nat) (name reason : string) (w : World)
    (dc : Datacenter) (dcs : list Datacenter)
    (cl : ComputeResource) (cls : list ComputeResource)
    (ds : Datastore) (dss : list Datastore) (t : Task) :
  vm_exists name w = (Ret false, w) ->
  rootFolder (content w) = dc :: dcs ->
  hostFolder dc = cl :: cls ->
  datastore_view (content w) = ds :: dss ->
  submit vc (creation_call name dc cl ds) (content w) = inr t ->
  (forall k, k < n -> Pending vc t (polls w + k)) ->
  (forall k, n <= k -> Failed vc t (polls w + k) reason) ->
  n < fuel ->
  create_vm vc fuel name w
  = (Ret (VTask t),
     log (EvPrint ("❌ VM creation failed: " ++ reason))
       (advance t (n + 3) (after_creation_call vc name dc cl ds w))).
Proof.
  intros Hex Hdc Hcl Hds Hsub Hp Hf Hfuel.
  pose proof (create_vm_wait_outcome vc fuel name w dc dcs cl cls ds dss t
                Hex Hdc Hcl Hds Hsub) as Hrun.
  cbv zeta in Hrun. rewrite Hrun.
  fold (creation_call name dc cl ds).
  fold (after_creation_call vc name dc cl ds w).
  now rewrite (wait_failure_run vc t n fuel _ _ reason
                 (after_creation_call vc name dc cl ds w) Hp Hf Hfuel).
Qed.

Lemma create_vm_returns_task_of_failed_creation_witness :
  create_vm fails_after_one 5 "Shital_TestVM" lab
  = (Ret (VTask 0),
     log (EvPrint ("❌ VM creation failed: " ++ "insufficient resources"))
       (advance 0 (1 + 3)
          (after_creation_call fails_after_one "Shital_TestVM" dc0
             {| resourcePool := Pool "Resources" [] |}
             {| ds_name := "LocalDS_0" |} lab))).
Proof.
  apply (create_vm_returns_task_of_failed_creation fails_after_one 5 1
           "Shital_TestVM" "insufficient resources" lab dc0 []
           {| resourcePool := Pool "Resources" [] |} []
           {| ds_name := "LocalDS_0" |} [] 0);
    try reflexivity.
  - intros k Hk. exists (info_of State.queued).
    destruct k as [|k]; [split; reflexivity | lia].
  - intros k Hk. unfold Failed. simpl.
    destruct k as [|k]; [lia | reflexivity].
  - lia.
Defined.

(** X6.  A creation that succeeds: when [n] reads show the task pending and
    from then on it has succeeded, [create_vm] prints the success line after
    [n + 2] reads of the task and returns the task. *)
Theorem create_vm_returns_task_of_created_vm
    (vc : Platform) (fuel n : nat) (name : string) (w : World)
    (dc : Datacenter) (dcs : list Datacenter)
    (cl : ComputeResource) (cls : list ComputeResource)
    (ds : Datastore) (dss : list Datastore) (t : Task) :
  vm_exists name w = (Ret false, w) ->
  rootFolder (content w) = dc :: dcs ->
  hostFolder dc = cl :: cls ->
  datastore_view (content w) = ds :: dss ->
  submit vc (creation_call name dc cl ds) (content w) = inr t ->
  (forall k, k < n -> Pending vc t (polls w + k)) ->
  (forall k, n <= k -> Succeeded vc t (polls w + k)) ->
  n < fuel ->
  create_vm vc fuel name w
  = (Ret (VTask t),
     log (EvPrint ("✅ VM '" ++ name ++ "' created successfully."))
       (advance t (n + 2) (after_creation_call vc name dc cl ds w))).
Proof.
  intros Hex Hdc Hcl Hds Hsub Hp Hs Hfuel.
  pose proof (create_vm_wait_outcome vc fuel name w dc dcs cl cls ds dss t
                Hex Hdc Hcl Hds Hsub) as Hrun.
  cbv zeta in Hrun. rewrite Hrun.
  fold (creation_call name dc cl ds).
  fold (after_creation_call vc name dc cl ds w).
  set (w1 := after_creation_call vc name dc cl ds w).
  destruct (Hs n (Nat.le_refl n)) as (i & Hi & Hsi).
  destruct (Hs (n + 1)) as (i' & Hi' & Hsi'); [lia|].
  unfold wait_for_task, bind.
  replace fuel with (n + S (fuel - S n)) by lia.
  rewrite (wait_loop_pending vc t n _ w1 Hp).
  rewrite (wait_loop_terminal vc t _ (advance t n w1) i);
    [| simpl; rewrite Nat.add_comm; exact Hi
     | unfold not_terminal; now rewrite Hsi].
  rewrite (report_success vc t _ _ (advance t 1 (advance t n w1)) i');
    [| simpl; replace (S (n + polls w)) with (polls w + (n + 1)) by lia; exact Hi'
     | exact Hsi'].
  rewrite !advance_advance. now replace (n + 1 + 1) with (n + 2) by lia.
Qed.

Lemma create_vm_returns_task_of_created_vm_witness :
  create_vm done_after_two 5 "Shital_TestVM" lab
  = (Ret (VTask 0),
     log (EvPrint ("✅ VM '" ++ "Shital_TestVM" ++ "' created successfully."))
       (advance 0 (2 + 2)
          (after_creation_call done_after_two "Shital_TestVM" dc0
             {| resourcePool := Pool "Resources" [] |}
             {| ds_name := "LocalDS_0" |} lab))).
Proof.
  apply (create_vm_returns_task_of_created_vm done_after_two 5 2
           "Shital_TestVM" lab dc0 []
           {| resourcePool := Pool "Resources" [] |} []
           {| ds_name := "LocalDS_0" |} [] 0);
    try reflexivity.
  - intros k Hk. exists (info_of State.running).
    destruct k as [|[|k]]; [split; reflexivity .. | lia].
  - intros k Hk. exists (info_of State.success).
    destruct k as [|[|k]]; [lia | lia | split; reflexivity].
  - lia.
Defined.

(** X7.  A connection that drops while [create_vm] waits costs the caller the
    task: the call has been accepted, but the exception of the read is
    caught, printed, and [None] is returned. *)
Theorem create_vm_loses_task_on_transport_error
    (vc : Platform) (fuel n : nat) (name : string) (w : World)
    (dc : Datacenter) (dcs : list Datacenter)
    (cl : ComputeResource) (cls : list ComputeResource)
    (ds : Datastore) (dss : list Datastore) (t : Task) (e : Exn) :
  vm_exists name w = (Ret false, w) ->
  rootFolder (content w) = dc :: dcs ->
  hostFolder dc = cl :: cls ->
  datastore_view (content w) = ds :: dss ->
  submit vc (creation_call name dc cl ds) (content w) = inr t ->
  (forall k, k < n -> Pending vc t (polls w + k)) ->
  task_info vc t (polls w + n) = inl e ->
  n < fuel ->
  create_vm vc fuel name w
  = (Ret VNone,
     log (EvPrint ("❌ Error during VM creation: " ++ str_exn e))
       (advance t (S n) (after_creation_call vc name dc cl ds w))).
Proof.
  intros Hex Hdc Hcl Hds Hsub Hp He Hfuel.
  pose proof (create_vm_wait_outcome vc fuel name w dc dcs cl cls ds dss t
                Hex Hdc Hcl Hds Hsub) as Hrun.
  cbv zeta in Hrun. rewrite Hrun.
  fold (creation_call name dc cl ds).
  fold (after_creation_call vc name dc cl ds w).
  now rewrite (wait_reaches_raising_read vc t n fuel _ _
                 (after_creation_call vc name dc cl ds w) e Hp He Hfuel).
Qed.

Lemma create_vm_loses_task_on_transport_error_witness :
  create_vm drops_at_third 5 "Shital_TestVM" lab
  = (Ret VNone,
     log (EvPrint ("❌ Error during VM creation: "
                   ++ str_exn (Fault "connection reset")))
       (advance 0 (S 2)
          (after_creation_call drops_at_third "Shital_TestVM" dc0
             {| resourcePool := Pool "Resources" [] |}
             {| ds_name := "LocalDS_0" |} lab))).
Proof.
  apply (create_vm_loses_task_on_transport_error drops_at_third 5 2
           "Shital_TestVM" lab dc0 []
           {| resourcePool := Pool "Resources" [] |} []
           {| ds_name := "LocalDS_0" |} [] 0 (Fault "connection reset"));
    try reflexivity.
  - intros k Hk. exists (info_of State.running).
    destruct k as [|[|k]]; [split; reflexivity .. | lia].
  - lia.
Defined.

(** X8.  [create_vm] never raises: everything from the look-up to the wait sits
    inside its [try], and the handler only prints.  Whatever the platform
    does, the caller gets [None] or a task, unless the wait is still
    running. *)
Theorem create_vm_never_raises
    (vc : Platform) (fuel : nat) (name : string) (w : World) :
  fst (create_vm vc fuel name w) = Ret VNone
  \/ (exists t, fst (create_vm vc fuel name w) = Ret (VTask t))
  \/ fst (create_vm vc fuel name w) = Looping.
Proof.
  unfold create_vm, try_except.
  match goal with
  | |- context [match ?body w with _ => _ end] => destruct (body w) as [[[|t]|e|] w1]
  end; simpl; eauto.
Qed.

(** X9.  [create_vm] submits at most one call, and when it submits one it is the
    creation of a VM of the requested name with 128 MB, one CPU and guest
    type [otherGuest], in the folder of the first datacenter, on the pool of
    its first cluster and on the first datastore. *)
Theorem create_vm_submits_at_most_one_call
    (vc : Platform) (fuel : nat) (name : string) (w : World) :
  submitted (trace (snd (create_vm vc fuel name w))) = submitted (trace w)
  \/ exists dc cl ds,
       hd_error (rootFolder (content w)) = Some dc /\
       hd_error (hostFolder dc) = Some cl /\
       hd_error (datastore_view (content w)) = Some ds /\
       submitted (trace (snd (create_vm vc fuel name w)))
       = (submitted (trace w) ++ [creation_call name dc cl ds])%list.
Proof.
  pose proof (vm_exists_run name w) as Hex.
  destruct (existsb _ _).
  { left. rewrite (create_vm_existing_run vc fuel name w Hex). simpl.
    now rewrite submitted_app, app_nil_r. }
  destruct (rootFolder (content w)) as [|dc dcs] eqn:Hdc.
  { left. rewrite (create_vm_no_datacenter_run vc fuel name w Hex Hdc). simpl.
    now rewrite submitted_app, app_nil_r. }
  destruct (hostFolder dc) as [|cl cls] eqn:Hcl.
  { left. rewrite (create_vm_no_cluster_run vc fuel name w dc dcs Hex Hdc Hcl).
    simpl. now rewrite submitted_app, app_nil_r. }
  destruct (datastore_view (content w)) as [|ds dss] eqn:Hds.
  { left.
    rewrite (create_vm_no_datastore_run vc fuel name w dc dcs cl cls Hex Hdc Hcl Hds).
    simpl. now rewrite !submitted_app, !app_nil_r. }
  right. exists dc, cl, ds. rewrite Hcl. repeat split.
  destruct (submit vc (creation_call name dc cl ds) (content w)) as [e|t] eqn:Hsub.
  - rewrite (create_vm_refused_run vc fuel name w dc dcs cl cls ds dss e
               Hex Hdc Hcl Hds Hsub).
    simpl. now rewrite submitted_app.
  - pose proof (create_vm_wait_outcome vc fuel name w dc dcs cl cls ds dss t
                  Hex Hdc Hcl Hds Hsub) as Hrun.
    cbv zeta in Hrun. rewrite Hrun.
    fold (creation_call name dc cl ds).
    fold (after_creation_call vc name dc cl ds w).
    match goal with
    | |- context [wait_for_task vc fuel t ?a ?b ?x] =>
        destruct (wait_run vc t fuel a b x) as (k & lines & Hw & _);
        destruct (wait_for_task vc fuel t a b x) as [[[]|e|] w2]
    end; simpl in Hw; subst w2; simpl;
      rewrite !submitted_app, submitted_reads, submitted_prints; simpl;
      now rewrite ?app_nil_r.
Qed.

(** ** control_vm_power after the look-up *)

(** X10.  [POWER_ON] on a VM that is not powered on (off or suspended) and
    [POWER_OFF] on a VM that is not powered off (on or suspended) submit
    exactly one call, the one the action names, on the first VM of that
    name.  The task of the call is not waited for: no task is read. *)
Theorem control_vm_power_switches
    (vc : Platform) (name : string) (action : PowerAction) (s : PowerState)
    (vm : VirtualMachine) (w : World) :
  find (fun v => vm_name v =? name) (vm_view (content w)) = Some vm ->
  rest_state action = Some s ->
  powerState vm <> s ->
  submitted (trace (snd (control_vm_power vc name action w)))
  = (submitted (trace w)
     ++ [match action with POWER_ON => PowerOn vm | _ => PowerOff vm end])%list /\
  polls (snd (control_vm_power vc name action w)) = polls w.
Proof.
  intros Hfind Hrest Hne.
  assert (Hrun : exists w',
             control_vm_power vc name action w = (Ret VNone, w') /\
             submitted (trace w')
             = (submitted (trace w)
                ++ [match action with POWER_ON => PowerOn vm | _ => PowerOff vm end])%list /\
             polls w' = polls w).
  { unfold control_vm_power, bind at 1, RetrieveContent. rewrite Hfind.
    unfold try_except, bind, print, ret, call, log.
    destruct action; simpl in Hrest; try discriminate Hrest;
      injection Hrest as <-;
      destruct (powerState vm); try (exfalso; apply Hne; reflexivity); simpl;
      match goal with
      | |- context [submit ?p ?c ?x] => destruct (submit p c x)
      end; simpl; eexists; (split; [reflexivity|]); simpl;
      rewrite !submitted_app; simpl; rewrite ?app_nil_r; auto. }
  destruct Hrun as (w' & Hrun & Hsub & Hpolls). rewrite Hrun. simpl. auto.
Qed.

Lemma control_vm_power_switches_witness :
  submitted (trace (snd (control_vm_power done_at_once "Shital_TestVM" POWER_ON
                           (world_of [vm_stopped]))))
  = (submitted (trace (world_of [vm_stopped])) ++ [PowerOn vm_stopped])%list /\
  polls (snd (control_vm_power done_at_once "Shital_TestVM" POWER_ON
                (world_of [vm_stopped])))
  = polls (world_of [vm_stopped]).
Proof.
  apply (control_vm_power_switches done_at_once "Shital_TestVM" POWER_ON
           poweredOn vm_stopped (world_of [vm_stopped])).
  - reflexivity.
  - reflexivity.
  - discriminate.
Defined.

(** X11.  [REBOOT] on a powered-on VM is a power-off followed at once by a
    power-on: when the platform accepts both, they are submitted in that
    order, the second against the inventory the first has left, and neither
    task is read in between or afterwards. *)
Theorem reboot_powers_off_then_on
    (vc : Platform) (name : string) (vm : VirtualMachine) (t_off t_on : Task)
    (w : World) :
  find (fun v => vm_name v =? name) (vm_view (content w)) = Some vm ->
  powerState vm = poweredOn ->
  submit vc (PowerOff vm) (content w) = inr t_off ->
  submit vc (PowerOn vm) (effect vc (PowerOff vm) (content w)) = inr t_on ->
  control_vm_power vc name REBOOT w
  = (Ret VNone,
     {| content := effect vc (PowerOn vm) (effect vc (PowerOff vm) (content w));
        polls := polls w;
        trace := trace w ++ [EvPrint ("🔄 Rebooting VM: " ++ name);
                             EvCall (PowerOff vm);
                             EvCall (PowerOn vm)] |}).
Proof.
  intros Hfind Hon Hoff Hon'.
  unfold control_vm_power, bind at 1, RetrieveContent. rewrite Hfind, Hon.
  unfold try_except, bind, print, ret, call, log. simpl.
  rewrite Hoff. simpl. rewrite Hon'. simpl.
  now rewrite <- !app_assoc.
Qed.

Lemma reboot_powers_off_then_on_witness :
  control_vm_power done_at_once "Shital_TestVM" REBOOT (world_of [vm_running])
  = (Ret VNone,
     {| content := effect done_at_once (PowerOn vm_running)
                     (effect done_at_once (PowerOff vm_running)
                        (content (world_of [vm_running])));
        polls := polls (world_of [vm_running]);
        trace := trace (world_of [vm_running])
                 ++ [EvPrint ("🔄 Rebooting VM: " ++ "Shital_TestVM");
                     EvCall (PowerOff vm_running);
                     EvCall (PowerOn vm_running)] |}).
Proof.
  apply (reboot_powers_off_then_on done_at_once "Shital_TestVM" vm_running 0 0
           (world_of [vm_running])); reflexivity.
Defined.

(** X12.  When the power-off of a [REBOOT] is refused, the power-on is never
    attempted: the VM is left to the one refused call, and the failure line
    names the action as [reboot]. *)
Theorem reboot_stops_when_power_off_is_refused
    (vc : Platform) (name : string) (vm : VirtualMachine) (e : Exn) (w : World) :
  find (fun v => vm_name v =? name) (vm_view (content w)) = Some vm ->
  powerState vm = poweredOn ->
  submit vc (PowerOff vm) (content w) = inl e ->
  control_vm_power vc name REBOOT w
  = (Ret VNone,
     {| content := effect vc (PowerOff vm) (content w);
        polls := polls w;
        trace := trace w ++ [EvPrint ("🔄 Rebooting VM: " ++ name);
                             EvCall (PowerOff vm);
                             EvPrint ("❌ Failed to reboot VM '" ++ name ++ "': "
                                      ++ str_exn e)] |}).
Proof.
  intros Hfind Hon Hoff.
  unfold control_vm_power, bind at 1, RetrieveContent. rewrite Hfind, Hon.
  unfold try_except, bind, print, ret, call, log. simpl.
  rewrite Hoff. simpl. now rewrite <- !app_assoc.
Qed.

Lemma reboot_stops_when_power_off_is_refused_witness :
  control_vm_power (refusing (Fault "host not responding")) "Shital_TestVM" REBOOT
    (world_of [vm_running])
  = (Ret VNone,
     {| content := effect (refusing (Fault "host not responding"))
                     (PowerOff vm_running) (content (world_of [vm_running]));
        polls := polls (world_of [vm_running]);
        trace := trace (world_of [vm_running])
                 ++ [EvPrint ("🔄 Rebooting VM: " ++ "Shital_TestVM");
                     EvCall (PowerOff vm_running);
                     EvPrint ("❌ Failed to reboot VM '" ++ "Shital_TestVM" ++ "': "
                              ++ str_exn (Fault "host not responding"))] |}).
Proof.
  apply (reboot_stops_when_power_off_is_refused (refusing (Fault "host not responding"))
           "Shital_TestVM" vm_running (Fault "host not responding")
           (world_of [vm_running])); reflexivity.
Defined.

(** X13.  [REBOOT] on a VM that is not powered on (off or suspended) does
    nothing but print that it cannot reboot. *)
Theorem reboot_needs_a_running_vm
    (vc : Platform) (name : string) (vm : VirtualMachine) (w : World) :
  find (fun v => vm_name v =? name) (vm_view (content w)) = Some vm ->
  powerState vm <> poweredOn ->
  control_vm_power vc name REBOOT w
  = (Ret VNone,
     log (EvPrint ("⚠️ Cannot reboot. VM '" ++ name ++ "' is not powered on.")) w).
Proof.
  intros Hfind Hne.
  unfold control_vm_power, bind at 1, RetrieveContent. rewrite Hfind.
  destruct (powerState vm); [exfalso; apply Hne; reflexivity| |]; reflexivity.
Qed.

Lemma reboot_needs_a_running_vm_witness :
  control_vm_power done_at_once "Shital_TestVM" REBOOT (world_of [vm_stopped])
  = (Ret VNone,
     log (EvPrint ("⚠️ Cannot reboot. VM '" ++ "Shital_TestVM"
                   ++ "' is not powered on."))
       (world_of [vm_stopped])).
Proof.
  apply (reboot_needs_a_running_vm done_at_once "Shital_TestVM" vm_stopped
           (world_of [vm_stopped])).
  - reflexivity.
  - discriminate.
Defined.

(** X14.  Once the look-up has found the first VM of the given name, the
    rest of [control_vm_power] is inside its [try] (lines 193-218): whatever
    the action, the power state and the platform's answers, it returns
    [None] and raises nothing, reads no task, submits at most two calls, and
    every call it submits is a [PowerOn] or a [PowerOff] of that VM. *)
Theorem control_vm_power_touches_only_the_first_match
    (vc : Platform) (name : string) (action : PowerAction)
    (vm : VirtualMachine) (w : World) :
  find (fun v => vm_name v =? name) (vm_view (content w)) = Some vm ->
  fst (control_vm_power vc name action w) = Ret VNone /\
  polls (snd (control_vm_power vc name action w)) = polls w /\
  exists calls,
    submitted (trace (snd (control_vm_power vc name action w)))
    = (submitted (trace w) ++ calls)%list /\
    length calls <= 2 /\
    Forall (fun c => c = PowerOn vm \/ c = PowerOff vm) calls.
Proof.
  intros Hfind.
  assert (Hrun : exists w',
             control_vm_power vc name action w = (Ret VNone, w') /\
             polls w' = polls w /\
             exists calls,
               submitted (trace w') = (submitted (trace w) ++ calls)%list /\
               length calls <= 2 /\
               Forall (fun c => c = PowerOn vm \/ c = PowerOff vm) calls).
  { unfold control_vm_power, bind at 1, RetrieveContent. rewrite Hfind.
    unfold try_except, bind, print, ret, call, log.
    destruct action; destruct (powerState vm); simpl;
      repeat match goal with
             | |- context [submit ?p ?c ?x] => destruct (submit p c x); simpl
             end;
      eexists; (split; [reflexivity|]); (split; [reflexivity|]);
      simpl; rewrite !submitted_app; simpl; rewrite ?app_nil_r, <- ?app_assoc;
      simpl;
      first
        [ exists []; rewrite app_nil_r; split; [reflexivity|];
          split; [simpl; lia|constructor]
        | eexists; split; [reflexivity|]; split; [simpl; lia|];
          repeat first
            [ apply Forall_nil
            | apply Forall_cons;
              [first [left; reflexivity | right; reflexivity]|] ] ]. }
  destruct Hrun as (w' & Hrun & Hpolls & calls & Hsub & Hlen & Hall).
  rewrite Hrun. simpl. split; [reflexivity|]. split; [exact Hpolls|].
  exists calls. auto.
Qed.

Lemma control_vm_power_touches_only_the_first_match_witness :
  fst (control_vm_power (refusing (Fault "host not responding")) "Shital_TestVM"
         REBOOT (world_of [vm_running; vm_stopped])) = Ret VNone /\
  polls (snd (control_vm_power (refusing (Fault "host not responding"))
                "Shital_TestVM" REBOOT (world_of [vm_running; vm_stopped])))
  = polls (world_of [vm_running; vm_stopped]) /\
  exists calls,
    submitted (trace (snd (control_vm_power (refusing (Fault "host not responding"))
                             "Shital_TestVM" REBOOT
                             (world_of [vm_running; vm_stopped]))))
    = (submitted (trace (world_of [vm_running; vm_stopped])) ++ calls)%list /\
    length calls <= 2 /\
    Forall (fun c => c = PowerOn vm_running \/ c = PowerOff vm_running) calls.
Proof.
  apply (control_vm_power_touches_only_the_first_match
           (refusing (Fault "host not responding")) "Shital_TestVM" REBOOT
           vm_running (world_of [vm_running; vm_stopped])).
  reflexivity.
Defined.

(** ** take_snapshot and revert_to_snapshot after the look-up *)

(** X15.  Once the look-up has found the first VM of the given name, the
    rest of [take_snapshot] is inside its [try] (lines 227-244): it submits
    exactly one call, the snapshot of that VM with the given name and
    description and with memory and quiescing both off, whether the platform
    accepts the call or not and however the wait ends; and it raises
    nothing: it returns [None], unless its wait is still running. *)
Theorem take_snapshot_submits_one_plain_snapshot
    (vc : Platform) (fuel : nat) (name snapshot_name description : string)
    (vm : VirtualMachine) (w : World) :
  find (fun v => vm_name v =? name) (vm_view (content w)) = Some vm ->
  submitted (trace (snd (take_snapshot vc fuel name snapshot_name description w)))
  = (submitted (trace w)
     ++ [CreateSnapshot_Task vm snapshot_name description false false])%list /\
  (fst (take_snapshot vc fuel name snapshot_name description w) = Ret VNone \/
   fst (take_snapshot vc fuel name snapshot_name description w) = Looping).
Proof.
  intros Hfind.
  assert (Hrun : exists r w',
             take_snapshot vc fuel name snapshot_name description w = (r, w') /\
             submitted (trace w')
             = (submitted (trace w)
                ++ [CreateSnapshot_Task vm snapshot_name description
                      false false])%list /\
             (r = Ret VNone \/ r = Looping)).
  { unfold take_snapshot, bind at 1, RetrieveContent. rewrite Hfind.
    unfold try_except, bind at 1, print at 1. unfold bind at 1, call.
    cbn [content log trace polls].
    destruct (submit vc _ _) as [e|t].
    - do 2 eexists. split; [reflexivity|]. tidy_calls.
    - unfold bind at 1.
      match goal with
      | |- context [wait_for_task vc fuel t ?a ?b ?x] =>
          destruct (wait_run vc t fuel a b x) as (k & lines & Hw & _);
          destruct (wait_for_task vc fuel t a b x) as [[[]|e|] w2]
      end; simpl in Hw; subst w2; do 2 eexists; (split; [reflexivity|]); tidy_calls. }
  destruct Hrun as (r & w' & Hrun & Hsub & Hr). rewrite Hrun. auto.
Qed.

Lemma take_snapshot_submits_one_plain_snapshot_witness :
  submitted (trace (snd (take_snapshot drops_at_third 9 "TemplateVM" "InitialSnap"
                           "Snapshot created by script" lab)))
  = (submitted (trace lab)
     ++ [CreateSnapshot_Task template_vm "InitialSnap"
           "Snapshot created by script" false false])%list /\
  (fst (take_snapshot drops_at_third 9 "TemplateVM" "InitialSnap"
          "Snapshot created by script" lab) = Ret VNone \/
   fst (take_snapshot drops_at_third 9 "TemplateVM" "InitialSnap"
          "Snapshot created by script" lab) = Looping).
Proof.
  apply (take_snapshot_submits_one_plain_snapshot drops_at_third 9 "TemplateVM"
           "InitialSnap" "Snapshot created by script" template_vm lab).
  reflexivity.
Defined.

(** X16.  Once the look-up has found the first VM that has the name and has
    snapshots, the rest of [revert_to_snapshot] is inside its [try] (lines
    253-267): it submits the revert to the first root snapshot of the given
    name when there is one and nothing otherwise, whatever the platform
    answers to the call and however the wait ends; and it raises nothing: it
    returns [None], unless its wait is still running. *)
Theorem revert_to_snapshot_submits_at_most_the_target
    (vc : Platform) (fuel : nat) (name snapshot_name : string)
    (vm : VirtualMachine) (s : SnapshotInfo) (w : World) :
  find (fun v => (vm_name v =? name) && has_snapshot v) (vm_view (content w))
  = Some vm ->
  snapshot vm = Some s ->
  submitted (trace (snd (revert_to_snapshot vc fuel name snapshot_name w)))
  = (submitted (trace w)
     ++ match find (fun tree => tree_name tree =? snapshot_name)
                   (rootSnapshotList s) with
        | Some tree => [RevertToSnapshot_Task (tree_snapshot tree)]
        | None => []
        end)%list /\
  (fst (revert_to_snapshot vc fuel name snapshot_name w) = Ret VNone \/
   fst (revert_to_snapshot vc fuel name snapshot_name w) = Looping).
Proof.
  intros Hfind Hsnap.
  assert (Hrun : exists r w',
             revert_to_snapshot vc fuel name snapshot_name w = (r, w') /\
             submitted (trace w')
             = (submitted (trace w)
                ++ match find (fun tree => tree_name tree =? snapshot_name)
                              (rootSnapshotList s) with
                   | Some tree => [RevertToSnapshot_Task (tree_snapshot tree)]
                   | None => []
                   end)%list /\
             (r = Ret VNone \/ r = Looping)).
  { unfold revert_to_snapshot, bind at 1, RetrieveContent. rewrite Hfind.
    unfold try_except, bind at 1. rewrite Hsnap. simpl attr_of. unfold ret at 1.
    destruct (find _ (rootSnapshotList s)) as [tree|].
    - unfold bind at 1, print at 1. unfold bind at 1, call.
      cbn [content log trace polls].
      destruct (submit vc _ _) as [e|t].
      + do 2 eexists. split; [reflexivity|]. tidy_calls.
      + unfold bind at 1.
        match goal with
        | |- context [wait_for_task vc fuel t ?a ?b ?x] =>
            destruct (wait_run vc t fuel a b x) as (k & lines & Hw & _);
            destruct (wait_for_task vc fuel t a b x) as [[[]|e|] w2]
        end; simpl in Hw; subst w2; do 2 eexists; (split; [reflexivity|]);
          tidy_calls.
    - do 2 eexists. split; [reflexivity|]. tidy_calls. }
  destruct Hrun as (r & w' & Hrun & Hsub & Hr). rewrite Hrun. auto.
Qed.

Lemma revert_to_snapshot_submits_at_most_the_target_witness :
  submitted (trace (snd (revert_to_snapshot fails_after_one 9 "TemplateVM"
                           "InitialSnap" lab)))
  = (submitted (trace lab)
     ++ match find (fun tree => tree_name tree =? "InitialSnap")
                   (rootSnapshotList
                      {| rootSnapshotList :=
                           [{| tree_name := "InitialSnap"; tree_snapshot := 11 |}];
                         currentSnapshot := 11 |}) with
        | Some tree => [RevertToSnapshot_Task (tree_snapshot tree)]
        | None => []
        end)%list /\
  (fst (revert_to_snapshot fails_after_one 9 "TemplateVM" "InitialSnap" lab)
   = Ret VNone \/
   fst (revert_to_snapshot fails_after_one 9 "TemplateVM" "InitialSnap" lab)
   = Looping).
Proof.
  apply (revert_to_snapshot_submits_at_most_the_target fails_after_one 9
           "TemplateVM" "InitialSnap" template_vm
           {| rootSnapshotList :=
                [{| tree_name := "InitialSnap"; tree_snapshot := 11 |}];
              currentSnapshot := 11 |} lab); reflexivity.
Defined.

(** X17.  A VM that has snapshots, but none of the given name among its root
    snapshots: [revert_to_snapshot] says so and leaves everything alone. *)
Theorem revert_to_unknown_snapshot
    (vc : Platform) (fuel : nat) (name snapshot_name : string)
    (vm : VirtualMachine) (s : SnapshotInfo) (w : World) :
  find (fun v => (vm_name v =? name) && has_snapshot v) (vm_view (content w))
  = Some vm ->
  snapshot vm = Some s ->
  find (fun tree => tree_name tree =? snapshot_name) (rootSnapshotList s) = None ->
  revert_to_snapshot vc fuel name snapshot_name w
  = (Ret VNone,
     log (EvPrint ("⚠️ Snapshot '" ++ snapshot_name ++ "' not found.")) w).
Proof.
  intros Hfind Hsnap Htree.
  unfold revert_to_snapshot, bind at 1, RetrieveContent. rewrite Hfind.
  unfold try_except, bind at 1. rewrite Hsnap. simpl attr_of. unfold ret at 1.
  now rewrite Htree.
Qed.

Lemma revert_to_unknown_snapshot_witness :
  revert_to_snapshot done_at_once 3 "TemplateVM" "Nightly" lab
  = (Ret VNone, log (EvPrint ("⚠️ Snapshot '" ++ "Nightly" ++ "' not found.")) lab).
Proof.
  apply (revert_to_unknown_snapshot done_at_once 3 "TemplateVM" "Nightly" template_vm
           {| rootSnapshotList := [{| tree_name := "InitialSnap"; tree_snapshot := 11 |}];
              currentSnapshot := 11 |} lab); reflexivity.
Defined.

(** ** clone_vm_from_template on every path *)

Lemma say_nil w : say [] w = w.
Proof. destruct w; unfold say; simpl. now rewrite app_nil_r. Qed.

Section CloneRuns.

Variable vc : Platform.
Variables (fuel : nat) (template_name new_vm_name : string).
Variables (datacenter_name datastore_name resource_pool_name : option string).
Variable power_on : bool.

Let clone :=
  clone_vm_from_template vc fuel template_name new_vm_name
    datacenter_name datastore_name resource_pool_name power_on.

Lemma clone_no_datacenter_run (w : World) :
  chosen_datacenter datacenter_name (content w) = None ->
  clone w = (Ret VNone, say ["❌ Datacenter not found."] w).
Proof.
  unfold chosen_datacenter. intros Hdc.
  unfold clone, clone_vm_from_template, bind at 1, RetrieveContent.
  now rewrite Hdc.
Qed.

Lemma clone_no_template_run (w : World) (dc : Datacenter) :
  chosen_datacenter datacenter_name (content w) = Some dc ->
  chosen_template template_name dc = None ->
  clone w
  = (Ret VNone, say [("❌ Template '" ++ template_name ++ "' not found.")%string] w).
Proof.
  unfold chosen_datacenter, chosen_template. intros Hdc Htv.
  unfold clone, clone_vm_from_template, bind at 1, RetrieveContent.
  rewrite Hdc.
  destruct (find (is_template template_name) (vmFolder dc)) as [[vm|f]|];
    [discriminate Htv|reflexivity|reflexivity].
Qed.

(** The datastore look-up, by its result and its output. *)
Lemma datastore_lookup_run (w : World) (dc : Datacenter) :
  (if given datastore_name then
     ret (find (fun ds => is_name datastore_name (ds_name ds)) (dc_datastore dc))
   else get_first_datastore) w
  = (Ret (chosen_datastore datastore_name dc (content w)),
     say (datastore_lines datastore_name (content w)) w).
Proof.
  unfold chosen_datastore, datastore_lines.
  destruct (given datastore_name).
  - unfold ret. now rewrite say_nil.
  - unfold get_first_datastore, bind, RetrieveContent.
    destruct (datastore_view (content w)); reflexivity.
Qed.

Lemma clone_no_datastore_run (w : World) (dc : Datacenter) (tv : VirtualMachine) :
  chosen_datacenter datacenter_name (content w) = Some dc ->
  chosen_template template_name dc = Some tv ->
  chosen_datastore datastore_name dc (content w) = None ->
  clone w
  = (Ret VNone,
     say (datastore_lines datastore_name (content w) ++ ["❌ Datastore not found."]) w).
Proof.
  unfold chosen_datacenter, chosen_template. intros Hdc Htv Hds.
  unfold clone, clone_vm_from_template, bind at 1, RetrieveContent.
  rewrite Hdc.
  destruct (find (is_template template_name) (vmFolder dc)) as [[vm|f]|];
    try discriminate Htv.
  unfold bind at 1. rewrite datastore_lookup_run, Hds.
  unfold bind, print, ret, log, say. simpl.
  now rewrite map_app, app_assoc.
Qed.

Lemma clone_no_cluster_run (w : World) (dc : Datacenter) (tv : VirtualMachine)
    (ds : Datastore) (e : Exn) :
  chosen_datacenter datacenter_name (content w) = Some dc ->
  chosen_template template_name dc = Some tv ->
  chosen_datastore datastore_name dc (content w) = Some ds ->
  chosen_pool resource_pool_name dc = inl e ->
  clone w = (Raise e, say (datastore_lines datastore_name (content w)) w).
Proof.
  unfold chosen_datacenter, chosen_template, chosen_pool. intros Hdc Htv Hds Hpool.
  unfold clone, clone_vm_from_template, bind at 1, RetrieveContent.
  rewrite Hdc.
  destruct (find (is_template template_name) (vmFolder dc)) as [[vm|f]|];
    try discriminate Htv.
  unfold bind at 1. rewrite datastore_lookup_run, Hds.
  destruct (given resource_pool_name); [discriminate Hpool|].
  destruct (hostFolder dc); [|discriminate Hpool].
  injection Hpool as <-. reflexivity.
Qed.

(** With everything chosen, what is left is the call and the wait. *)
Lemma clone_chosen_run (w : World) (dc : Datacenter) (tv : VirtualMachine)
    (ds : Datastore) (pool : option ResourcePool) :
  chosen_datacenter datacenter_name (content w) = Some dc ->
  chosen_template template_name dc = Some tv ->
  chosen_datastore datastore_name dc (content w) = Some ds ->
  chosen_pool resource_pool_name dc = inr pool ->
  clone w
  = (task <- call vc (clone_call new_vm_name power_on dc tv ds pool) ;;
     wait_for_task vc fuel task
       ("✅ VM '" ++ new_vm_name ++ "' cloned successfully.")
       "❌ Clone failed: " ;;
     ret VNone)
      (say (datastore_lines datastore_name (content w)
            ++ [("🛠️ Cloning VM '" ++ new_vm_name ++ "' from template '"
                 ++ template_name ++ "'...")%string]) w).
Proof.
  unfold chosen_datacenter, chosen_template, chosen_pool. intros Hdc Htv Hds Hpool.
  unfold clone, clone_vm_from_template, bind at 1, RetrieveContent.
  rewrite Hdc.
  destruct (find (is_template template_name) (vmFolder dc)) as [[vm|f]|];
    try discriminate Htv.
  injection Htv as ->.
  unfold bind at 1. rewrite datastore_lookup_run, Hds.
  assert (Hp : forall w1,
             (if given resource_pool_name then
                ret (find_resource_pool (hostFolder dc) resource_pool_name)
              else cluster <- index0 (hostFolder dc) ;; ret (Some (resourcePool cluster))) w1
             = (Ret pool, w1)).
  { intros w1. destruct (given resource_pool_name).
    - injection Hpool as <-. reflexivity.
    - destruct (hostFolder dc); [discriminate Hpool|].
      injection Hpool as <-. reflexivity. }
  unfold bind at 1. rewrite Hp.
  unfold bind at 1, print at 1.
  replace (log (EvPrint ("🛠️ Cloning VM '" ++ new_vm_name ++ "' from template '"
                         ++ template_name ++ "'..."))
             (say (datastore_lines datastore_name (content w)) w))
    with (say (datastore_lines datastore_name (content w)
               ++ [("🛠️ Cloning VM '" ++ new_vm_name ++ "' from template '"
                    ++ template_name ++ "'...")%string]) w)
    by (unfold log, say; simpl; now rewrite map_app, app_assoc).
  reflexivity.
Qed.

End CloneRuns.

(** X18.  When no datacenter is chosen, or no template in it, or no datastore,
    [clone_vm_from_template] only prints and returns [None]: nothing is
    submitted.  A folder that bears the template's name is no template, and a
    named datastore that the datacenter does not have is not replaced by
    another one. *)
Theorem clone_gives_up_when_a_lookup_fails
    (vc : Platform) (fuel : nat) (template_name new_vm_name : string)
    (datacenter_name datastore_name resource_pool_name : option string)
    (power_on : bool) (w : World) :
  chosen_datacenter datacenter_name (content w) = None
  \/ (exists dc,
        chosen_datacenter datacenter_name (content w) = Some dc /\
        (chosen_template template_name dc = None
         \/ chosen_datastore datastore_name dc (content w) = None)) ->
  exists lines,
    clone_vm_from_template vc fuel template_name new_vm_name
      datacenter_name datastore_name resource_pool_name power_on w
    = (Ret VNone, say lines w) /\
    lines <> [].
Proof.
  intros [Hdc|(dc & Hdc & Hrest)].
  - eexists. split; [apply clone_no_datacenter_run; exact Hdc|discriminate].
  - destruct (chosen_template template_name dc) as [tv|] eqn:Htv.
    + destruct Hrest as [H|Hds]; [discriminate H|].
      eexists. split; [apply (clone_no_datastore_run _ _ _ _ _ _ _ _ w dc tv Hdc Htv Hds)|].
      destruct (datastore_lines _ _); discriminate.
    + eexists. split; [apply (clone_no_template_run _ _ _ _ _ _ _ _ w dc Hdc Htv)|].
      discriminate.
Qed.

Lemma clone_gives_up_when_a_lookup_fails_witness :
  exists lines,
    clone_vm_from_template done_at_once 3 "TemplateVM" "Shital_ClonedVM"
      None None None true world_with_folder_only
    = (Ret VNone, say lines world_with_folder_only) /\
    lines <> [].
Proof.
  apply (clone_gives_up_when_a_lookup_fails done_at_once 3 "TemplateVM"
           "Shital_ClonedVM" None None None true world_with_folder_only).
  right. eexists. split; [reflexivity|]. left. reflexivity.
Defined.

(** X19.  Without a pool name and without a cluster in the datacenter, the clone
    stops on [childEntity[0]]: the [IndexError] is not caught and reaches the
    caller, before anything is submitted. *)
Theorem clone_raises_without_cluster
    (vc : Platform) (fuel : nat) (template_name new_vm_name : string)
    (datacenter_name datastore_name : option string)
    (power_on : bool) (w : World)
    (dc : Datacenter) (tv : VirtualMachine) (ds : Datastore) :
  chosen_datacenter datacenter_name (content w) = Some dc ->
  chosen_template template_name dc = Some tv ->
  chosen_datastore datastore_name dc (content w) = Some ds ->
  hostFolder dc = [] ->
  clone_vm_from_template vc fuel template_name new_vm_name
    datacenter_name datastore_name None power_on w
  = (Raise IndexError, say (datastore_lines datastore_name (content w)) w).
Proof.
  intros Hdc Htv Hds Hcl.
  apply (clone_no_cluster_run vc fuel template_name new_vm_name datacenter_name
           datastore_name None power_on w dc tv ds IndexError Hdc Htv Hds).
  unfold chosen_pool. simpl. now rewrite Hcl.
Qed.

Lemma clone_raises_without_cluster_witness :
  clone_vm_from_template done_at_once 3 "TemplateVM" "Shital_ClonedVM"
    None (Some "LocalDS_0") None true world_without_cluster
  = (Raise IndexError,
     say (datastore_lines (Some "LocalDS_0") (content world_without_cluster))
       world_without_cluster).
Proof.
  apply (clone_raises_without_cluster done_at_once 3 "TemplateVM" "Shital_ClonedVM"
           None (Some "LocalDS_0") true world_without_cluster
           {| dc_name := "DC0";
              vmFolder := [EntityVM template_vm];
              hostFolder := [];
              dc_datastore := [{| ds_name := "LocalDS_0" |}] |}
           template_vm {| ds_name := "LocalDS_0" |}); reflexivity.
Defined.

(** X20.  Once datacenter, template and datastore are chosen and the pool look-up
    has not raised, [clone_vm_from_template] submits exactly one call: the
    clone of the template into the datacenter's folder, on the chosen
    datastore and with the chosen pool.  A pool name that no cluster knows
    gives no pool ([None]), and the clone is submitted all the same. *)
Theorem clone_submits_the_chosen_clone
    (vc : Platform) (fuel : nat) (template_name new_vm_name : string)
    (datacenter_name datastore_name resource_pool_name : option string)
    (power_on : bool) (w : World)
    (dc : Datacenter) (tv : VirtualMachine) (ds : Datastore)
    (pool : option ResourcePool) :
  chosen_datacenter datacenter_name (content w) = Some dc ->
  chosen_template template_name dc = Some tv ->
  chosen_datastore datastore_name dc (content w) = Some ds ->
  chosen_pool resource_pool_name dc = inr pool ->
  submitted (trace (snd (clone_vm_from_template vc fuel template_name new_vm_name
                           datacenter_name datastore_name resource_pool_name
                           power_on w)))
  = (submitted (trace w) ++ [clone_call new_vm_name power_on dc tv ds pool])%list.
Proof.
  intros Hdc Htv Hds Hpool.
  rewrite (clone_chosen_run vc fuel template_name new_vm_name datacenter_name
             datastore_name resource_pool_name power_on w dc tv ds pool
             Hdc Htv Hds Hpool).
  unfold bind at 1, call. cbn [content say trace polls].
  destruct (submit vc _ _) as [e|t].
  - simpl. rewrite !submitted_app, submitted_prints. tidy_calls.
  - unfold bind at 1.
    match goal with
    | |- context [wait_for_task vc fuel t ?a ?b ?x] =>
        destruct (wait_run vc t fuel a b x) as (k & lines & Hw & _);
        destruct (wait_for_task vc fuel t a b x) as [[[]|e|] w2]
    end; simpl in Hw; subst w2; simpl;
      rewrite !submitted_app, submitted_reads, !submitted_prints; tidy_calls.
Qed.

(** The lab with a pool name that its cluster does not know. *)
Lemma clone_submits_the_chosen_clone_witness :
  submitted (trace (snd (clone_vm_from_template done_at_once 3 "TemplateVM"
                           "Shital_ClonedVM" None None (Some "Production") true lab)))
  = (submitted (trace lab)
     ++ [clone_call "Shital_ClonedVM" true dc0 template_vm
           {| ds_name := "LocalDS_0" |} None])%list.
Proof.
  apply (clone_submits_the_chosen_clone done_at_once 3 "TemplateVM" "Shital_ClonedVM"
           None None (Some "Production") true lab dc0 template_vm
           {| ds_name := "LocalDS_0" |} None); reflexivity.
Defined.

(** X21.  [clone_vm_from_template] has no handler: a clone that the platform
    refuses, and a read of the task that fails during the wait, both reach
    the caller as the raised exception. *)
Theorem clone_lets_exceptions_through
    (vc : Platform) (fuel n : nat) (template_name new_vm_name : string)
    (datacenter_name datastore_name resource_pool_name : option string)
    (power_on : bool) (w : World)
    (dc : Datacenter) (tv : VirtualMachine) (ds : Datastore)
    (pool : option ResourcePool) (t : Task) (e : Exn) :
  chosen_datacenter datacenter_name (content w) = Some dc ->
  chosen_template template_name dc = Some tv ->
  chosen_datastore datastore_name dc (content w) = Some ds ->
  chosen_pool resource_pool_name dc = inr pool ->
  submit vc (clone_call new_vm_name power_on dc tv ds pool) (content w) = inl e
  \/ (submit vc (clone_call new_vm_name power_on dc tv ds pool) (content w) = inr t /\
      (forall k, k < n -> Pending vc t (polls w + k)) /\
      task_info vc t (polls w + n) = inl e /\
      n < fuel) ->
  fst (clone_vm_from_template vc fuel template_name new_vm_name
         datacenter_name datastore_name resource_pool_name power_on w)
  = Raise e.
Proof.
  intros Hdc Htv Hds Hpool Hfail.
  rewrite (clone_chosen_run vc fuel template_name new_vm_name datacenter_name
             datastore_name resource_pool_name power_on w dc tv ds pool
             Hdc Htv Hds Hpool).
  unfold bind at 1, call. cbn [content say trace polls].
  destruct Hfail as [Hsub|(Hsub & Hp & He & Hfuel)]; rewrite Hsub.
  - reflexivity.
  - unfold bind at 1.
    match goal with
    | |- context [wait_for_task vc fuel t ?a ?b ?x] =>
        rewrite (wait_reaches_raising_read vc t n fuel a b x e Hp He Hfuel)
    end.
    reflexivity.
Qed.

Lemma clone_lets_exceptions_through_witness :
  fst (clone_vm_from_template drops_at_third 5 "TemplateVM" "Shital_ClonedVM"
         None None None true lab)
  = Raise (Fault "connection reset").
Proof.
  apply (clone_lets_exceptions_through drops_at_third 5 2 "TemplateVM"
           "Shital_ClonedVM" None None None true lab dc0 template_vm
           {| ds_name := "LocalDS_0" |} (Some (Pool "Resources" [])) 0
           (Fault "connection reset")); try reflexivity.
  right. split; [reflexivity|]. split; [|split; [reflexivity|lia]].
  intros k Hk. exists (info_of State.running).
  destruct k as [|[|k]]; [split; reflexivity .. | lia].
Defined.

Lemma find_resource_pool_snoc
    (clusters : list ComputeResource) (cluster : ComputeResource)
    (resource_pool_name : option string) :
  find_resource_pool (clusters ++ [cluster]) resource_pool_name
  = match find (fun rp => is_name resource_pool_name (rp_name rp))
               (rp_children (resourcePool cluster)) with
    | Some rp => Some rp
    | None => find_resource_pool clusters resource_pool_name
    end.
Proof.
  unfold find_resource_pool. now rewrite fold_left_app.
Qed.

(** X22.  The pool look-up keeps the last match.  The pool it gives is the first
    child pool of the given name in the last cluster that has one: clusters
    before it do not count, whatever they hold, because the [break] of line
    394 leaves the inner loop only. *)
Theorem find_resource_pool_last_cluster_wins
    (before after : list ComputeResource) (cluster : ComputeResource)
    (resource_pool_name : option string) (rp : ResourcePool) :
  find (fun p => is_name resource_pool_name (rp_name p))
       (rp_children (resourcePool cluster)) = Some rp ->
  Forall (fun c => find (fun p => is_name resource_pool_name (rp_name p))
                        (rp_children (resourcePool c)) = None) after ->
  find_resource_pool (before ++ cluster :: after) resource_pool_name = Some rp.
Proof.
  intros Hrp. induction after as [|c after IH] using rev_ind; intros Hnone.
  - now rewrite find_resource_pool_snoc, Hrp.
  - apply Forall_app in Hnone. destruct Hnone as [Hafter Hc].
    inversion Hc as [|? ? Hc' _]; subst.
    replace (before ++ cluster :: after ++ [c])%list
      with ((before ++ cluster :: after) ++ [c])%list
      by (now rewrite <- app_assoc).
    rewrite find_resource_pool_snoc, Hc'. now apply IH.
Qed.

Lemma find_resource_pool_last_cluster_wins_witness :
  find_resource_pool ([cluster_east] ++ cluster_west :: [])
    (Some "Production") = Some (Pool "Production" []).
Proof.
  apply (find_resource_pool_last_cluster_wins [cluster_east] [] cluster_west
           (Some "Production") (Pool "Production" [])).
  - reflexivity.
  - constructor.
Defined.

(** ** monitor_recent_vm_events, answer by answer *)

(** X23.  With a session, when [QueryEvents] answers with events of the
    platform (whose [vm] is a [VmEventArgument], so that none passes the
    test of line 499), the monitor prints the header with the limit in
    decimal and then the line of line 511, and returns [None]: no event is
    shown, however many power events the answer holds and whatever the
    limit. *)
Theorem monitor_reports_none_found_for_sdk_answers
    (max_events : Z) (events : list VcEvent) (w : World) :
  recent_events (content w) = inr events ->
  forallb sdk_event events = true ->
  monitor_recent_vm_events (Some Session) max_events w
  = (Ret VNone,
     say [(newline ++ "📋 Recent VM Power Events (up to "
           ++ str_int max_events ++ "):")%string;
          "No recent VM power events found."] w).
Proof.
  intros Hanswer Hsdk.
  unfold monitor_recent_vm_events, bind at 1, RetrieveContent, try_except,
    bind at 1, print at 1.
  cbn [content log]. rewrite Hanswer.
  unfold bind at 1, ret at 1. unfold bind at 1.
  rewrite (events_loop_passes_over events 0%Z max_events _ Hsdk).
  unfold bind, print, ret, log, say. simpl.
  now rewrite <- app_assoc.
Qed.

Lemma monitor_reports_none_found_for_sdk_answers_witness :
  monitor_recent_vm_events (Some Session) 20
    (world_with_events [power_on_event; power_on_event])
  = (Ret VNone,
     say [(newline ++ "📋 Recent VM Power Events (up to "
           ++ str_int 20 ++ "):")%string;
          "No recent VM power events found."]
       (world_with_events [power_on_event; power_on_event])).
Proof.
  apply (monitor_reports_none_found_for_sdk_answers 20
           [power_on_event; power_on_event]
           (world_with_events [power_on_event; power_on_event]));
    reflexivity.
Defined.

(** X24.  With a session, when [QueryEvents] raises, the [except] of line
    512 catches it: the monitor has printed the header, prints the failure
    line with the text of the exception, and returns [None]; the line of
    line 511 is not printed. *)
Theorem monitor_reports_query_failure
    (max_events : Z) (e : Exn) (w : World) :
  recent_events (content w) = inl e ->
  monitor_recent_vm_events (Some Session) max_events w
  = (Ret VNone,
     say [(newline ++ "📋 Recent VM Power Events (up to "
           ++ str_int max_events ++ "):")%string;
          ("❌ Failed to retrieve events: " ++ str_exn e)%string] w).
Proof.
  intros Hanswer.
  unfold monitor_recent_vm_events, bind at 1, RetrieveContent, try_except,
    bind at 1, print at 1.
  cbn [content log]. rewrite Hanswer.
  unfold bind, raise, print, ret, log, say. simpl.
  now rewrite <- app_assoc.
Qed.

Lemma monitor_reports_query_failure_witness :
  monitor_recent_vm_events (Some Session) 20
    {| content :=
         {| rootFolder := []; vm_view := []; datastore_view := [];
            recent_events := inl (Fault "permission denied") |};
       polls := 0; trace := [] |}
  = (Ret VNone,
     say [(newline ++ "📋 Recent VM Power Events (up to "
           ++ str_int 20 ++ "):")%string;
          ("❌ Failed to retrieve events: "
           ++ str_exn (Fault "permission denied"))%string]
       {| content :=
            {| rootFolder := []; vm_view := []; datastore_view := [];
               recent_events := inl (Fault "permission denied") |};
          polls := 0; trace := [] |}).
Proof.
  apply (monitor_reports_query_failure 20 (Fault "permission denied")
           {| content :=
                {| rootFolder := []; vm_view := []; datastore_view := [];
                   recent_events := inl (Fault "permission denied") |};
              polls := 0; trace := [] |}).
  reflexivity.
Defined.

(** ** Look-ups agree *)

Lemma find_none_of_existsb {A} (p : A -> bool) (xs : list A) :
  existsb p xs = false -> find p xs = None.
Proof.
  induction xs as [|x xs IH]; simpl; [reflexivity|].
  destruct (p x); simpl; [discriminate|exact IH].
Qed.

(** X27.  The existence check of [create_vm] and the look-ups of the other
    operations agree: when [vm_exists] answers [False] for a name,
    [control_vm_power], [take_snapshot] and [revert_to_snapshot] all report
    that name as not found and do nothing else. *)
Theorem missing_vm_is_missing_everywhere
    (vc : Platform) (fuel : nat) (name snapshot_name description : string)
    (action : PowerAction) (w : World) :
  vm_exists name w = (Ret false, w) ->
  control_vm_power vc name action w
  = (Ret VNone, log (EvPrint (not_found_line name)) w) /\
  take_snapshot vc fuel name snapshot_name description w
  = (Ret VNone, log (EvPrint (not_found_line name)) w) /\
  revert_to_snapshot vc fuel name snapshot_name w
  = (Ret VNone,
     log (EvPrint ("❌ VM '" ++ name ++ "' not found or has no snapshots.")) w).
Proof.
  rewrite vm_exists_run. intros Hex. injection Hex as Hex.
  pose proof (find_none_of_existsb _ _ Hex) as Hfind.
  split; [apply control_vm_power_not_found; exact Hfind|].
  split; [apply take_snapshot_not_found; exact Hfind|].
  unfold revert_to_snapshot, bind at 1, RetrieveContent.
  rewrite (find_none_of_existsb
             (fun vm => (vm_name vm =? name) && has_snapshot vm)
             (vm_view (content w))); [reflexivity|].
  clear Hfind. induction (vm_view (content w)) as [|vm vms IH]; [reflexivity|].
  simpl in *. destruct (vm_name vm =? name); [discriminate Hex|]. simpl.
  apply IH. exact Hex.
Qed.

Lemma missing_vm_is_missing_everywhere_witness :
  control_vm_power done_at_once "Ghost" REBOOT lab
  = (Ret VNone, log (EvPrint (not_found_line "Ghost")) lab) /\
  take_snapshot done_at_once 3 "Ghost" "InitialSnap" "made by script" lab
  = (Ret VNone, log (EvPrint (not_found_line "Ghost")) lab) /\
  revert_to_snapshot done_at_once 3 "Ghost" "InitialSnap" lab
  = (Ret VNone,
     log (EvPrint ("❌ VM '" ++ "Ghost" ++ "' not found or has no snapshots.")) lab).
Proof.
  apply (missing_vm_is_missing_everywhere done_at_once 3 "Ghost" "InitialSnap"
           "made by script" REBOOT lab).
  reflexivity.
Defined.
